(** * repeater/web/http_server.py: log buffer, SPA dispatcher, route table

    A shallow embedding of [LogBuffer], [StatsApp] and [HTTPStatsServer].
    Python objects that are mutated in place (the [deque] behind
    [LogBuffer.logs], the lists handed out to readers) live in a heap of
    locations; everything that can raise runs in a state-and-exception
    monad over that heap, [sys.stderr], the calls made on the module logger
    and the CherryPy globals the module writes to. *)

From stdpp Require Import gmap strings list fin_maps.
From stdpp Require Import pretty.
From Stdlib Require Import ZArith Lia Ascii.


(** ** Exceptions and results *)

(** Instances of [Exception].  Builtin errors carry their class name and
    [str(e)]; the two CherryPy classes the module raises are kept apart. *)
Inductive exn : Type :=
| PyError (cls : string) (detail : string)
| HTTPError (status : Z) (message : string)
| NotFound.

Inductive Res (A : Type) : Type :=
| Ok (a : A)
| Raise (e : exn).
Arguments Ok {A} a.
Arguments Raise {A} e.

Definition is_Ok {A} (r : Res A) : bool :=
  match r with Ok _ => true | Raise _ => false end.

(** [isinstance(e, FileNotFoundError)] for the first [except] clause of
    [StatsApp.index]. *)
Definition is_FileNotFoundError (e : exn) : bool :=
  match e with
  | PyError cls _ => bool_decide (cls = "FileNotFoundError")
  | _ => false
  end.

(** [isinstance(e, OSError)]: the class and its builtin subclasses, for the
    [except OSError] clause of [logging.Handler.handleError]. *)
Definition is_OSError (e : exn) : bool :=
  match e with
  | PyError cls _ =>
      bool_decide (cls ∈ [
        "OSError"; "BlockingIOError"; "ChildProcessError"; "ConnectionError";
        "BrokenPipeError"; "ConnectionAbortedError"; "ConnectionRefusedError";
        "ConnectionResetError"; "FileExistsError"; "FileNotFoundError";
        "InterruptedError"; "IsADirectoryError"; "NotADirectoryError";
        "PermissionError"; "ProcessLookupError"; "TimeoutError"])
  | _ => false
  end.

(** ** Log entries and the bounded deque *)

(** The dict appended by [emit]: keys "message", "timestamp", "level". *)
Record LogEntry : Type := mkLogEntry {
  message : string;
  timestamp : string;
  level : string
}.

(** [collections.deque(maxlen=...)]: [maxlen = None] is unbounded. *)
Record deque : Type := Deque {
  maxlen : option nat;
  items : list LogEntry
}.

(** [deque.append]: the item goes to the right end, then a bounded deque
    that has grown past [maxlen] drops its leftmost item. *)
Definition deque_append (d : deque) (x : LogEntry) : deque :=
  let grown := items d ++ [x] in
  match maxlen d with
  | Some n =>
      if decide (n < length grown) then Deque (Some n) (tail grown)
      else Deque (Some n) grown
  | None => Deque None grown
  end.

(** ** The store *)

Definition loc := nat.

Inductive obj : Type :=
| ODeque (d : deque)
| OList (l : list LogEntry).

(** Values found in CherryPy configuration dicts. *)
Inductive setting : Type :=
| SBool (b : bool)
| SInt (n : Z)
| SStr (s : string)
| STypes (m : gmap string string).

(** What the module writes to in [cherrypy] and [cherrypy_cors]. *)
Record cherrypy_state : Type := CherryPy {
  cors_installed : bool;
  global_config : gmap string setting;
  tree : gmap string (gmap string (gmap string setting));
  access_log_propagate : bool;
  error_log_level : Z;
  engine_running : bool
}.

Record store : Type := Store {
  heap : gmap loc obj;
  stderr : list string;
  log_calls : list (string * string);
  cherrypy : cherrypy_state
}.

Definition set_heap (f : gmap loc obj → gmap loc obj) (s : store) : store :=
  Store (f (heap s)) (stderr s) (log_calls s) (cherrypy s).
Definition set_stderr (f : list string → list string) (s : store) : store :=
  Store (heap s) (f (stderr s)) (log_calls s) (cherrypy s).
Definition set_log_calls
    (f : list (string * string) → list (string * string)) (s : store) : store :=
  Store (heap s) (stderr s) (f (log_calls s)) (cherrypy s).
Definition set_cherrypy (f : cherrypy_state → cherrypy_state) (s : store) : store :=
  Store (heap s) (stderr s) (log_calls s) (f (cherrypy s)).

(** ** The monad *)

Definition M (A : Type) : Type := store → Res A * store.

Global Instance M_ret : MRet M := λ A a s, (Ok a, s).
Global Instance M_bind : MBind M := λ A B f m s,
  match m s with
  | (Ok a, s') => f a s'
  | (Raise e, s') => (Raise e, s')
  end.

Definition raise {A} (e : exn) : M A := λ s, (Raise e, s).
Definition lift {A} (r : Res A) : M A := λ s, (r, s).
Definition modify (f : store → store) : M unit := λ s, (Ok (), f s).

(** [try: body / except Exception as e: handler e]. *)
Definition try_except {A} (body : M A) (handler : exn → M A) : M A := λ s,
  match body s with
  | (Ok a, s') => (Ok a, s')
  | (Raise e, s') => handler e s'
  end.

(** Calls on [logger = logging.getLogger("HTTPServer")]. *)
Definition logger_call (levelname msg : string) : M unit :=
  modify (set_log_calls (λ l, l ++ [(levelname, msg)])).

(** ** Heap operations *)

Definition alloc (o : obj) : M loc := λ s,
  let l := fresh (dom (heap s)) in
  (Ok l, set_heap (<[l := o]>) s).

(** [o.append(x)] on the object at [l]; a deque trims, a list grows. *)
Definition append (l : loc) (x : LogEntry) : M unit := λ s,
  match heap s !! l with
  | Some (ODeque d) => (Ok (), set_heap (<[l := ODeque (deque_append d x)]>) s)
  | Some (OList xs) => (Ok (), set_heap (<[l := OList (xs ++ [x])]>) s)
  | None => (Raise (PyError "ReferenceError" "dangling reference"), s)
  end.

(** The sequence held by the object at [l], oldest first. *)
Definition contents (l : loc) (s : store) : list LogEntry :=
  match heap s !! l with
  | Some (ODeque d) => items d
  | Some (OList xs) => xs
  | None => []
  end.

(** ** LogBuffer *)

Module LogBuffer.

Record t : Type := mk { logs : loc }.

(** [__init__(self, max_lines=100)], with the argument passed; [None]
    makes the deque unbounded, and [deque] rejects a negative bound. *)
Definition __init__ (max_lines : option Z) : M t :=
  match max_lines with
  | Some n =>
      if decide (n < 0)%Z
      then raise (PyError "ValueError" "maxlen must be non-negative")
      else l ← alloc (ODeque (Deque (Some (Z.to_nat n)) [])); mret (mk l)
  | None => l ← alloc (ODeque (Deque None [])); mret (mk l)
  end.

Section Logging.
(** [logging.LogRecord] and the standard-library calls [emit] makes on
    it: [self.format(record)] with the formatter installed by
    [__init__], [datetime.fromtimestamp(record.created).isoformat()],
    and [record.levelname]. *)
Variable LogRecord : Type.
Variable format : LogRecord → Res string.
Variable created_isoformat : LogRecord → Res string.
Variable levelname : LogRecord → string.
(** [logging.raiseExceptions]. *)
Variable raiseExceptions : bool.
(** Whether [sys.stderr] is set (it is [None] in a process without a
    console). *)
Variable stderr_set : bool.
(** What writing the error report of a record on [sys.stderr] does: the
    lines that get written and, when the writing is cut short, the
    exception that cuts it (an error of the stream, or a [RecursionError]
    while the record's arguments are rendered). *)
Variable stderr_report : LogRecord → list string * option exn.

(** [logging.Handler.handleError]: with [raiseExceptions] on and
    [sys.stderr] set, the report is written inside [try], and of what
    that raises only [OSError] is passed over; otherwise nothing is
    done. *)
Definition handleError (record : LogRecord) : M unit :=
  if raiseExceptions && stderr_set
  then
    modify (set_stderr (λ l, l ++ (stderr_report record).1)) ;;
    match (stderr_report record).2 with
    | None => mret ()
    | Some e => if is_OSError e then mret () else raise e
    end
  else mret ().

(** Whether [handleError] returns for a record. *)
Definition swallowed (record : LogRecord) : bool :=
  negb (raiseExceptions && stderr_set)
  || match (stderr_report record).2 with
     | None => true
     | Some e => is_OSError e
     end.

Definition emit (self : t) (record : LogRecord) : M unit :=
  try_except
    (msg ← lift (format record);
     ts ← lift (created_isoformat record);
     append (logs self) (mkLogEntry msg ts (levelname record)))
    (λ _, handleError record).

(** A run of the logging facility: one call of [emit] per record, in
    turn.  Each call is made for a logging statement of its own, so an
    exception that escapes a call goes to that statement's caller and the
    records that follow are still emitted; the run as a whole returns. *)
Fixpoint emit_all (self : t) (records : list LogRecord) : M unit :=
  match records with
  | [] => mret ()
  | r :: rest => λ s, emit_all self rest (emit self r s).2
  end.

(** The entry [emit] builds for a record, when it can be built. *)
Definition entry_of (record : LogRecord) : option LogEntry :=
  match format record, created_isoformat record with
  | Ok msg, Ok ts => Some (mkLogEntry msg ts (levelname record))
  | _, _ => None
  end.

(** The entries a run inserts: those of the records that format. *)
Definition inserted (records : list LogRecord) : list LogEntry :=
  omap entry_of records.
End Logging.

Arguments handleError {LogRecord} raiseExceptions stderr_set stderr_report
  record.
Arguments swallowed {LogRecord} raiseExceptions stderr_set stderr_report
  record.
Arguments emit {LogRecord} format created_isoformat levelname raiseExceptions
  stderr_set stderr_report self record.
Arguments emit_all {LogRecord} format created_isoformat levelname
  raiseExceptions stderr_set stderr_report self records.
Arguments entry_of {LogRecord} format created_isoformat levelname record.
Arguments inserted {LogRecord} format created_isoformat levelname records.

(** Modelled from the spec: [snapshot()] is not defined in
    http_server.py; the reader of the buffer lives in the API delegate.
    Following the spec's contract, it copies the stored entries, oldest
    to newest, into a list object of its own and returns that list. *)
Definition snapshot (self : t) : M loc := λ s,
  match heap s !! logs self with
  | Some (ODeque d) => alloc (OList (items d)) s
  | Some (OList xs) => alloc (OList xs) s
  | None => (Raise (PyError "ReferenceError" "dangling reference"), s)
  end.

End LogBuffer.

(** [_log_buffer = LogBuffer(max_lines=100)]. *)
Definition _log_buffer : M LogBuffer.t := LogBuffer.__init__ (Some 100%Z).

(** ** Paths and configuration *)

Fixpoint ends_with_sep (p : string) : bool :=
  match p with
  | EmptyString => false
  | String c EmptyString => bool_decide (c = "/"%char)
  | String _ rest => ends_with_sep rest
  end.

(** [os.path.join(a, b)] of [posixpath]. *)
Definition path_join (a b : string) : string :=
  if String.prefix "/" b then b
  else if bool_decide (a = "") || ends_with_sep a then a +:+ b
  else a +:+ "/" +:+ b.

(** The "web" section of the configuration bag, with the two keys the
    module reads; an absent key is [None]. *)
Record WebSection : Type := mkWebSection {
  web_path : option string;
  cors_enabled : option bool
}.

(** The configuration bag: [None] is the constructor's [config=None],
    [web = None] a bag without a "web" key. *)
Record Config : Type := mkConfig { web : option WebSection }.

(** [config or {}]. *)
Definition config_or_empty (config : option Config) : Config :=
  default (mkConfig None) config.

(** [config.get("web", {}).get("web_path", default_html_dir)]. *)
Definition get_web_path (config : Config) (default_html_dir : string) : string :=
  default default_html_dir (w ← web config; web_path w).

(** [config.get("web", {}).get("cors_enabled", False)]. *)
Definition get_cors_enabled (config : Config) : bool :=
  default false (w ← web config; cors_enabled w).

(** [os.path.join(os.path.dirname(__file__), "html")], given
    [os.path.dirname(__file__)]. *)
Definition default_html_dir (module_dir : string) : string :=
  path_join module_dir "html".

(** [str(e)] as the module's f-strings render it.  The two CherryPy
    classes are raised by the handlers only and reach none of those
    f-strings; the message alone stands for them. *)
Definition exn_str (e : exn) : string :=
  match e with
  | PyError _ detail => detail
  | HTTPError _ message => message
  | NotFound => ""
  end.

Definition bool_str (b : bool) : string := if b then "True" else "False".

(** ** CherryPy globals *)

(** [cherrypy_cors.install()] has taken effect. *)
Definition cherrypy_cors_installed : M unit :=
  modify (set_cherrypy (λ c,
    CherryPy true (global_config c) (tree c) (access_log_propagate c)
      (error_log_level c) (engine_running c))).

(** [cherrypy.config.update(d)]: the keys of [d] override. *)
Definition cherrypy_config_update (d : gmap string setting) : M unit :=
  modify (set_cherrypy (λ c,
    CherryPy (cors_installed c) (d ∪ global_config c) (tree c)
      (access_log_propagate c) (error_log_level c) (engine_running c))).

(** [cherrypy.tree.mount(app, script_name, config)]. *)
Definition cherrypy_tree_mount (script_name : string)
    (config : gmap string (gmap string setting)) : M unit :=
  modify (set_cherrypy (λ c,
    CherryPy (cors_installed c) (global_config c)
      (<[script_name := config]> (tree c))
      (access_log_propagate c) (error_log_level c) (engine_running c))).

(** [cherrypy.log.access_log.propagate = b]. *)
Definition cherrypy_access_log_propagate (b : bool) : M unit :=
  modify (set_cherrypy (λ c,
    CherryPy (cors_installed c) (global_config c) (tree c) b
      (error_log_level c) (engine_running c))).

(** [cherrypy.log.error_log.setLevel(n)]. *)
Definition cherrypy_error_log_setLevel (n : Z) : M unit :=
  modify (set_cherrypy (λ c,
    CherryPy (cors_installed c) (global_config c) (tree c)
      (access_log_propagate c) n (engine_running c))).

(** The engine's state after a [start()] or [exit()] that returned. *)
Definition cherrypy_engine_running (b : bool) : M unit :=
  modify (set_cherrypy (λ c,
    CherryPy (cors_installed c) (global_config c) (tree c)
      (access_log_propagate c) (error_log_level c) b)).

(** [logging.ERROR]. *)
Definition logging_ERROR : Z := 40.

(** ** StatsApp *)

(** An instance of [APIEndpoints], the API delegate.  Its class lives in
    api_endpoints.py, which is not among the sources; nothing in this
    module looks inside the object. *)
Inductive APIEndpoints : Type := api_object.

Module StatsApp.

Record t : Type := mk {
  config : Config;
  html_dir : string;
  api : APIEndpoints
}.

Section Methods.
(** [os.path.dirname(__file__)]. *)
Variable module_dir : string.
(** [open(path, 'r', encoding='utf-8')] followed by [f.read()]. *)
Variable open_read : string → Res string.
(** The constructor call [APIEndpoints(stats_getter, send_advert_func,
    self.config, event_loop, daemon_instance, config_path)]: whatever it
    does to the store, and the delegate it returns or the exception it
    raises.  Of its arguments only the configuration bag is modelled. *)
Variable new_APIEndpoints : Config → M APIEndpoints.

Definition __init__ (config : option Config) : M t :=
  let cfg := config_or_empty config in
  let html_dir := get_web_path cfg (default_html_dir module_dir) in
  api ← new_APIEndpoints cfg;
  mret (mk cfg html_dir api).

Definition index (self : t) : M string :=
  let index_path := path_join (html_dir self) "index.html" in
  try_except
    (lift (open_read index_path))
    (λ e,
      if is_FileNotFoundError e
      then raise (HTTPError 404
                    "Application not found. Please build the frontend first.")
      else
        logger_call "ERROR" ("Error serving index.html: " +:+ exn_str e) ;;
        raise (HTTPError 500 "Internal server error")).

(** [default(self, *args, **kwargs)]; [method] is
    [cherrypy.request.method], [args] the path segments and [kwargs] the
    query parameters. *)
Definition default (self : t) (method : string)
    (args : list string) (kwargs : gmap string string) : M string :=
  if bool_decide (method = "OPTIONS") then mret ""
  else if match args with
          | a :: _ => bool_decide (a = "api")
          | [] => false
          end
  then raise NotFound
  else index self.
End Methods.

End StatsApp.

(** ** HTTPStatsServer *)

Module HTTPStatsServer.

Record t : Type := mk {
  host : string;
  port : Z;
  config : Config;
  app : StatsApp.t;
  _cors_enabled : bool
}.

(** [table[path][key] = value] on a section that is present. *)
Definition set_nested (path key : string) (value : setting)
    (table : gmap string (gmap string setting))
    : gmap string (gmap string setting) :=
  alter (<[key := value]>) path table.

(** The dict [config] of [start], given the paths [start] computes, the
    outcome of its two [os.path.isdir] tests and [self._cors_enabled]. *)
Definition route_table (html_dir assets_dir next_dir : string)
    (assets_isdir next_isdir cors_enabled : bool)
    : gmap string (gmap string setting) :=
  let config : gmap string (gmap string setting) :=
    list_to_map [
      ("/", list_to_map [
         ("tools.sessions.on", SBool false);
         ("tools.staticfile.content_types", STypes (list_to_map [
            ("js", "application/javascript");
            ("css", "text/css");
            ("html", "text/html; charset=utf-8");
            ("svg", "image/svg+xml");
            ("txt", "text/plain")]))]);
      ("/favicon.ico", list_to_map [
         ("tools.staticfile.on", SBool true);
         ("tools.staticfile.filename", SStr (path_join html_dir "favicon.ico"))])]
  in
  let config :=
    if assets_isdir
    then <["/assets" := list_to_map [
           ("tools.staticdir.on", SBool true);
           ("tools.staticdir.dir", SStr assets_dir);
           ("tools.staticdir.content_types", STypes (list_to_map [
              ("js", "application/javascript");
              ("css", "text/css");
              ("map", "application/json")]))]]> config
    else config in
  let config :=
    if next_isdir
    then <["/_next" := list_to_map [
           ("tools.staticdir.on", SBool true);
           ("tools.staticdir.dir", SStr next_dir);
           ("tools.staticdir.content_types", STypes (list_to_map [
              ("js", "application/javascript");
              ("css", "text/css");
              ("map", "application/json")]))]]> config
    else config in
  if cors_enabled
  then
    let config := set_nested "/" "cors.expose.on" (SBool true) config in
    let config :=
      if bool_decide ("/assets" ∈ dom config)
      then set_nested "/assets" "cors.expose.on" (SBool true) config
      else config in
    let config :=
      if bool_decide ("/_next" ∈ dom config)
      then set_nested "/_next" "cors.expose.on" (SBool true) config
      else config in
    set_nested "/favicon.ico" "cors.expose.on" (SBool true) config
  else config.

Section Methods.
(** [os.path.dirname(__file__)]. *)
Variable module_dir : string.
(** [os.path.isdir]. *)
Variable isdir : string → bool.
(** Outcomes of [cherrypy_cors.install()], [cherrypy.engine.start()] and
    [cherrypy.engine.exit()]. *)
Variable cors_install : Res unit.
Variable engine_start : Res unit.
Variable engine_exit : Res unit.
(** The constructor of the API delegate, as in [StatsApp]. *)
Variable new_APIEndpoints : Config → M APIEndpoints.

Definition __init__ (host : string) (port : Z)
    (config : option Config) : M t :=
  let cfg := config_or_empty config in
  app ← StatsApp.__init__ module_dir new_APIEndpoints config;
  let cors := get_cors_enabled cfg in
  logger_call "INFO" ("CORS enabled: " +:+ bool_str cors) ;;
  mret (mk host port cfg app cors).

Definition _setup_server_cors : M unit :=
  lift cors_install ;;
  cherrypy_cors_installed ;;
  logger_call "INFO" "CORS support enabled".

(** The dict [config] that [start] builds and mounts. *)
Definition route_config (self : t) : gmap string (gmap string setting) :=
  let html_dir := get_web_path (config self) (default_html_dir module_dir) in
  let assets_dir := path_join html_dir "assets" in
  let next_dir := path_join html_dir "_next" in
  route_table html_dir assets_dir next_dir
    (isdir assets_dir) (isdir next_dir) (_cors_enabled self).

Definition start (self : t) : M unit :=
  try_except
    ((if _cors_enabled self then _setup_server_cors else mret ()) ;;
     let config := route_config self in
     cherrypy_config_update (list_to_map [
       ("server.socket_host", SStr (host self));
       ("server.socket_port", SInt (port self));
       ("engine.autoreload.on", SBool false);
       ("log.screen", SBool false);
       ("log.access_file", SStr "");
       ("log.error_file", SStr "")]) ;;
     cherrypy_tree_mount "/" config ;;
     cherrypy_access_log_propagate false ;;
     cherrypy_error_log_setLevel logging_ERROR ;;
     lift engine_start ;;
     cherrypy_engine_running true ;;
     logger_call "INFO"
       ("HTTP stats server started on http://" +:+ host self +:+ ":"
        +:+ pretty (port self)))
    (λ e,
      logger_call "ERROR" ("Failed to start HTTP server: " +:+ exn_str e) ;;
      raise e).

Definition stop (self : t) : M unit :=
  try_except
    (lift engine_exit ;;
     cherrypy_engine_running false ;;
     logger_call "INFO" "HTTP stats server stopped")
    (λ e, logger_call "WARNING" ("Error stopping HTTP server: " +:+ exn_str e)).
End Methods.

End HTTPStatsServer.

(** ** Reading the route table *)

(** The content-type rules of one section: the pairs (extension, type) of
    every content-types dict it carries. *)
Definition section_rules (sec : gmap string setting) : list (string * string) :=
  '(_, v) ← map_to_list sec;
  match v with
  | STypes m => map_to_list m
  | _ => []
  end.

(** All content-type rules of a route table. *)
Definition content_type_rules (table : gmap string (gmap string setting))
    : list (string * string) :=
  '(_, sec) ← map_to_list table; section_rules sec.

Definition has_rule (table : gmap string (gmap string setting))
    (ext type : string) : bool :=
  bool_decide ((ext, type) ∈ content_type_rules table).

(** [table[path][key]], when both keys are present. *)
Definition setting_at (table : gmap string (gmap string setting))
    (path key : string) : option setting :=
  sec ← table !! path; sec !! key.

(** ** Sample inputs *)

Module Sample.

(** A process that has touched nothing yet. *)
Definition store0 : store :=
  Store ∅ [] [] (CherryPy false ∅ ∅ true 0 false).

(** Log records reduced to their message template; "%d" stands for a
    record whose arguments do not fit its template. *)
Definition format (record : string) : Res string :=
  if bool_decide (record = "%d")
  then Raise (PyError "TypeError" "%d format: a real number is required, not str")
  else if bool_decide (record = "%r")
  then Raise (PyError "RecursionError" "maximum recursion depth exceeded")
  else Ok ("2025-01-01 00:00:00,000 - Repeater - INFO - " +:+ record).

(** The report of a failed record gets written, except for "%r", a record
    whose argument cannot be rendered for the report either. *)
Definition stderr_report (record : string) : list string * option exn :=
  if bool_decide (record = "%r")
  then (["--- Logging error ---"],
        Some (PyError "RecursionError" "maximum recursion depth exceeded"))
  else (["--- Logging error ---"], None).

Definition created_isoformat (record : string) : Res string :=
  Ok "2025-01-01T00:00:00".

Definition levelname (record : string) : string := "INFO".

Definition entry (record : string) : LogEntry :=
  mkLogEntry ("2025-01-01 00:00:00,000 - Repeater - INFO - " +:+ record)
    "2025-01-01T00:00:00" "INFO".

(** A web root with a built frontend, one whose entry document cannot be
    read, and nothing else. *)
Definition open_read (path : string) : Res string :=
  if bool_decide (path = "/srv/www/index.html") then Ok "<html>OK</html>"
  else if bool_decide (path = "/srv/locked/index.html")
  then Raise (PyError "PermissionError"
                "[Errno 13] Permission denied: '/srv/locked/index.html'")
  else Raise (PyError "FileNotFoundError"
                ("[Errno 2] No such file or directory: " +:+ path)).

Definition isdir (path : string) : bool :=
  bool_decide (path = "/srv/www/assets").

Definition config (web_path : string) (cors : bool) : Config :=
  mkConfig (Some (mkWebSection (Some web_path) (Some cors))).

Definition module_dir : string := "/opt/repeater/web".

(** An API delegate that is built without incident. *)
Definition new_APIEndpoints (cfg : Config) : M APIEndpoints :=
  mret api_object.

(** The objects the two constructors return for these inputs. *)
Definition app (web_path : string) : StatsApp.t :=
  StatsApp.mk (config web_path false) web_path api_object.

Definition server (web_path : string) (cors : bool) : HTTPStatsServer.t :=
  HTTPStatsServer.mk "0.0.0.0" 8000 (config web_path cors)
    (StatsApp.mk (config web_path cors) web_path api_object) cors.

End Sample.

(** * Properties *)

(** ** The monad *)

Lemma bind_Ok {A B} (m : M A) (f : A → M B) s a s' :
  m s = (Ok a, s') → (m ≫= f) s = f a s'.
Proof. intros H. unfold mbind, M_bind. by rewrite H. Qed.

Lemma bind_Raise {A B} (m : M A) (f : A → M B) s e s' :
  m s = (Raise e, s') → (m ≫= f) s = (Raise e, s').
Proof. intros H. unfold mbind, M_bind. by rewrite H. Qed.

(** ** The bounded deque *)

Lemma tail_drop {A} (l : list A) : tail l = drop 1 l.
Proof. by destruct l. Qed.

Lemma deque_append_maxlen d x : maxlen (deque_append d x) = maxlen d.
Proof.
  unfold deque_append. destruct (maxlen d) as [n|]; [|done].
  by case_decide.
Qed.

(** One append on a bounded deque that respects its bound. *)
Lemma deque_append_bounded C l x :
  length l ≤ C →
  deque_append (Deque (Some C) l) x =
    Deque (Some C) (drop (length (l ++ [x]) - C) (l ++ [x])).
Proof.
  intros Hl. unfold deque_append; simpl. rewrite length_app; simpl.
  case_decide.
  - replace (length l + 1 - C) with 1 by lia. by rewrite tail_drop.
  - replace (length l + 1 - C) with 0 by lia. by rewrite drop_0.
Qed.

(** Any run of appends leaves the last [C] of everything seen. *)
Lemma deque_append_fold C xs : ∀ l,
  length l ≤ C →
  fold_left deque_append xs (Deque (Some C) l) =
    Deque (Some C) (drop (length (l ++ xs) - C) (l ++ xs)).
Proof.
  induction xs as [|x xs IH]; intros l Hl; simpl.
  - rewrite app_nil_r. replace (length l - C) with 0 by lia. by rewrite drop_0.
  - rewrite deque_append_bounded by done.
    rewrite IH by (rewrite length_drop, length_app; simpl; lia).
    f_equal.
    rewrite !length_app, length_drop, length_app; simpl.
    destruct (decide (length l + 1 ≤ C)) as [Hle|Hgt].
    + replace (length l + 1 - C) with 0 by lia. rewrite drop_0.
      rewrite <- app_assoc; simpl. f_equal. lia.
    + replace (length l + 1 - C) with 1 by lia.
      replace (length l + S (length xs) - C) with (1 + length xs) by lia.
      replace (length l + 1 - 1 + length xs - C) with (length xs) by lia.
      rewrite <- drop_drop.
      rewrite (cons_middle x l xs), app_assoc.
      rewrite (drop_app_le (l ++ [x]) xs 1) by (rewrite length_app; simpl; lia).
      done.
Qed.

Lemma deque_append_from_empty C xs :
  items (fold_left deque_append xs (Deque (Some C) [])) =
    drop (length xs - C) xs.
Proof. by rewrite deque_append_fold by (simpl; lia). Qed.

(** ** LogBuffer.emit *)

Section LogBufferProps.
Context {LogRecord : Type}.
Context (format created_isoformat : LogRecord → Res string).
Context (levelname : LogRecord → string) (raiseExceptions : bool).
Context (stderr_set : bool).
Context (stderr_report : LogRecord → list string * option exn).

Local Abbreviation handleError :=
  (LogBuffer.handleError raiseExceptions stderr_set stderr_report).
Local Abbreviation swallowed :=
  (LogBuffer.swallowed raiseExceptions stderr_set stderr_report).
Local Abbreviation emit :=
  (LogBuffer.emit format created_isoformat levelname raiseExceptions
     stderr_set stderr_report).
Local Abbreviation emit_all :=
  (LogBuffer.emit_all format created_isoformat levelname raiseExceptions
     stderr_set stderr_report).
Local Abbreviation entry_of :=
  (LogBuffer.entry_of format created_isoformat levelname).
Local Abbreviation inserted :=
  (LogBuffer.inserted format created_isoformat levelname).

(** [handleError] writes to nothing but [sys.stderr], whether it returns
    or raises. *)
Lemma handleError_store r s :
  ∃ res err, handleError r s = (res, set_stderr (λ _, err) s).
Proof.
  unfold LogBuffer.handleError, mbind, M_bind, modify.
  destruct (raiseExceptions && stderr_set).
  - destruct (stderr_report r).2 as [e|]; [destruct (is_OSError e)|];
      by do 2 eexists.
  - exists (Ok ()), (stderr s). by destruct s.
Qed.

(** It returns exactly for the records that [swallowed] accepts. *)
Lemma handleError_swallowed r s :
  swallowed r = true → (handleError r s).1 = Ok ().
Proof.
  unfold LogBuffer.swallowed, LogBuffer.handleError, mbind, M_bind, modify.
  destruct (raiseExceptions && stderr_set); [|done]. simpl.
  destruct (stderr_report r).2 as [e|]; [|done].
  by intros ->.
Qed.

(** What it raises is what cut the report short, and no [OSError]. *)
Lemma handleError_raises r s e :
  (handleError r s).1 = Raise e →
  raiseExceptions = true ∧ stderr_set = true ∧
  (stderr_report r).2 = Some e ∧ is_OSError e = false.
Proof.
  unfold LogBuffer.handleError, mbind, M_bind, modify.
  destruct raiseExceptions, stderr_set; try done. simpl.
  destruct (stderr_report r).2 as [e'|]; [|done].
  destruct (is_OSError e') eqn:Hos; [done|].
  by intros [= ->].
Qed.

(** Whether it returns or raises does not depend on the store. *)
Lemma handleError_result r s t : (handleError r s).1 = (handleError r t).1.
Proof.
  unfold LogBuffer.handleError, mbind, M_bind, modify.
  destruct (raiseExceptions && stderr_set); [|done].
  destruct (stderr_report r).2 as [e|]; [by destruct (is_OSError e)|done].
Qed.

(** A record that formats is appended to the deque. *)
Lemma emit_inserts self r e d s :
  entry_of r = Some e →
  heap s !! LogBuffer.logs self = Some (ODeque d) →
  emit self r s =
    (Ok (), set_heap (<[LogBuffer.logs self := ODeque (deque_append d e)]>) s).
Proof.
  unfold LogBuffer.entry_of, LogBuffer.emit, try_except, mbind, M_bind, lift,
    append.
  intros He Hd.
  destruct (format r) as [msg|]; [|done].
  destruct (created_isoformat r) as [ts|]; [|done].
  injection He as <-. by rewrite Hd.
Qed.

(** On a plain list in place of the deque, it is appended all the same. *)
Lemma emit_appends self r e xs s :
  entry_of r = Some e →
  heap s !! LogBuffer.logs self = Some (OList xs) →
  emit self r s =
    (Ok (), set_heap (<[LogBuffer.logs self := OList (xs ++ [e])]>) s).
Proof.
  unfold LogBuffer.entry_of, LogBuffer.emit, try_except, mbind, M_bind, lift,
    append.
  intros He Hd.
  destruct (format r) as [msg|]; [|done].
  destruct (created_isoformat r) as [ts|]; [|done].
  injection He as <-. by rewrite Hd.
Qed.

(** A record that does not format goes to [handleError]. *)
Lemma emit_skips self r s :
  entry_of r = None → emit self r s = handleError r s.
Proof.
  unfold LogBuffer.entry_of, LogBuffer.emit, try_except, mbind, M_bind, lift.
  intros He.
  destruct (format r) as [msg|]; [|done].
  by destruct (created_isoformat r) as [ts|].
Qed.

(** So does a record whose entry cannot be stored. *)
Lemma emit_unstored self r s :
  heap s !! LogBuffer.logs self = None → emit self r s = handleError r s.
Proof.
  unfold LogBuffer.emit, try_except.
  unfold mbind at 1 2, M_bind at 1 2, lift, append.
  intros Hd.
  destruct (format r) as [msg|]; [|done].
  destruct (created_isoformat r) as [ts|]; [|done].
  by rewrite Hd.
Qed.

Lemma inserted_cons r rs :
  inserted (r :: rs) =
    match entry_of r with
    | Some e => e :: inserted rs
    | None => inserted rs
    end.
Proof. reflexivity. Qed.

Lemma emit_all_cons self r rs s :
  emit_all self (r :: rs) s = emit_all self rs (emit self r s).2.
Proof. reflexivity. Qed.

(** A run of [emit] over a live deque: the records that format are
    appended in order, the others leave the heap alone. *)
Lemma emit_all_spec self rs : ∀ s d,
  heap s !! LogBuffer.logs self = Some (ODeque d) →
  ∃ s',
    emit_all self rs s = (Ok (), s') ∧
    heap s' =
      <[LogBuffer.logs self := ODeque (fold_left deque_append (inserted rs) d)]>
        (heap s).
Proof.
  induction rs as [|r rs IH]; intros s d Hd.
  - exists s. split; [done|]. simpl. by rewrite insert_id.
  - rewrite inserted_cons, emit_all_cons.
    destruct (entry_of r) as [e|] eqn:He.
    + rewrite (emit_inserts self r e d s He Hd). simpl.
      destruct (IH (set_heap (<[LogBuffer.logs self := ODeque (deque_append d e)]>) s)
                  (deque_append d e)) as (s' & Hrun & Hheap).
      { simpl. by rewrite lookup_insert_eq. }
      exists s'. split; [done|].
      rewrite Hheap. simpl. by rewrite insert_insert_eq.
    + rewrite (emit_skips self r s He).
      destruct (handleError_store r s) as (res & err & ->). simpl.
      destruct (IH (set_stderr (λ _, err) s) d) as (s' & Hrun & Hheap); [done|].
      exists s'. split; [done|]. by rewrite Hheap.
Qed.
End LogBufferProps.

Section LogBufferClaims.
Context {LogRecord : Type}.
Context (format created_isoformat : LogRecord → Res string).
Context (levelname : LogRecord → string) (raiseExceptions : bool).
Context (stderr_set : bool).
Context (stderr_report : LogRecord → list string * option exn).

Local Abbreviation handleError :=
  (LogBuffer.handleError raiseExceptions stderr_set stderr_report).
Local Abbreviation swallowed :=
  (LogBuffer.swallowed raiseExceptions stderr_set stderr_report).
Local Abbreviation emit :=
  (LogBuffer.emit format created_isoformat levelname raiseExceptions
     stderr_set stderr_report).
Local Abbreviation emit_all :=
  (LogBuffer.emit_all format created_isoformat levelname raiseExceptions
     stderr_set stderr_report).
Local Abbreviation entry_of :=
  (LogBuffer.entry_of format created_isoformat levelname).
Local Abbreviation inserted :=
  (LogBuffer.inserted format created_isoformat levelname).

(** A fresh buffer of capacity [C] is a live, empty, bounded deque. *)
Lemma init_bounded (C : nat) s0 :
  ∃ self,
    LogBuffer.__init__ (Some (Z.of_nat C)) s0 =
      (Ok self,
       set_heap (<[LogBuffer.logs self := ODeque (Deque (Some C) [])]>) s0) ∧
    heap s0 !! LogBuffer.logs self = None.
Proof.
  exists (LogBuffer.mk (fresh (dom (heap s0)))). split.
  - unfold LogBuffer.__init__. case_decide; [lia|].
    unfold mbind, M_bind, alloc, mret, M_ret. simpl. by rewrite Nat2Z.id.
  - simpl. apply not_elem_of_dom. apply is_fresh.
Qed.

(** The module's own buffer is a live, empty deque bounded by 100. *)
Lemma log_buffer_global s0 :
  ∃ self,
    _log_buffer s0 =
      (Ok self,
       set_heap (<[LogBuffer.logs self := ODeque (Deque (Some 100) [])]>) s0).
Proof. destruct (init_bounded 100 s0) as (self & H & _). by exists self. Qed.

(** C1. Starting from a fresh buffer of capacity [C], after any run of
    [emit] the stored sequence is the last [C] of the [N] entries that were
    inserted, in insertion order; its length is [min N C], never above [C];
    and a further insert appends at the right end and, once [C] entries
    have been inserted, drops exactly the leftmost (oldest) one. *)
Theorem log_buffer_keeps_last_entries
    (C : nat) (records : list LogRecord) (s0 : store) :
  let ins := inserted records in
  let N := length ins in
  ∃ self s1 s2,
    LogBuffer.__init__ (Some (Z.of_nat C)) s0 = (Ok self, s1) ∧
    emit_all self records s1 = (Ok (), s2) ∧
    contents (LogBuffer.logs self) s2 = drop (N - C) ins ∧
    length (contents (LogBuffer.logs self) s2) = N `min` C ∧
    length (contents (LogBuffer.logs self) s2) ≤ C ∧
    ∀ r, contents (LogBuffer.logs self) (emit self r s2).2 =
           match entry_of r with
           | Some e =>
               if decide (C ≤ N)
               then tail (contents (LogBuffer.logs self) s2 ++ [e])
               else contents (LogBuffer.logs self) s2 ++ [e]
           | None => contents (LogBuffer.logs self) s2
           end.
Proof.
  intros ins N.
  destruct (init_bounded C s0) as (self & Hinit & _).
  set (s1 := set_heap (<[LogBuffer.logs self := ODeque (Deque (Some C) [])]>) s0) in *.
  assert (Hlive : heap s1 !! LogBuffer.logs self = Some (ODeque (Deque (Some C) []))).
  { subst s1. simpl. by rewrite lookup_insert_eq. }
  destruct (emit_all_spec format created_isoformat levelname raiseExceptions
              stderr_set stderr_report self records s1 _ Hlive)
    as (s2 & Hrun & Hheap).
  rewrite deque_append_fold in Hheap by (simpl; lia). simpl in Hheap.
  fold ins in Hheap. fold N in Hheap.
  assert (Hlook : heap s2 !! LogBuffer.logs self =
                    Some (ODeque (Deque (Some C) (drop (N - C) ins)))).
  { rewrite Hheap. by rewrite lookup_insert_eq. }
  assert (Hcont : contents (LogBuffer.logs self) s2 = drop (N - C) ins).
  { unfold contents. by rewrite Hlook. }
  assert (Hlen : length (drop (N - C) ins) = N `min` C).
  { rewrite length_drop. fold N. lia. }
  exists self, s1, s2. rewrite Hcont, Hlen.
  repeat split; [done|done|lia|].
  intros r. destruct (entry_of r) as [e|] eqn:He.
  - rewrite (emit_inserts _ _ _ _ _ _ self r e _ s2 He Hlook). simpl.
    unfold contents. simpl. rewrite lookup_insert_eq.
    unfold deque_append. simpl. rewrite length_app, Hlen. simpl.
    repeat case_decide; try done; lia.
  - rewrite (emit_skips _ _ _ _ _ _ self r s2 He).
    destruct (handleError_store raiseExceptions stderr_set stderr_report r s2)
      as (res & err & ->). simpl.
    unfold contents. simpl. by rewrite Hlook.
Qed.

(** [emit] writes to no heap object other than its own deque, whether it
    returns or raises. *)
Lemma emit_frame self r s :
  ∀ l, l ≠ LogBuffer.logs self →
       heap (emit self r s).2 !! l = heap s !! l.
Proof.
  unfold LogBuffer.emit, try_except.
  unfold mbind at 1 2, M_bind at 1 2, lift, append.
  destruct (format r) as [msg|];
    [destruct (created_isoformat r) as [ts|];
     [destruct (heap s !! LogBuffer.logs self) as [[d|xs]|] eqn:Hd|]|];
    try (destruct (handleError_store raiseExceptions stderr_set stderr_report
                     r s) as (res & err & ->); done);
    intros l Hl; simpl; by rewrite lookup_insert_ne.
Qed.

Lemma emit_all_frame self rs : ∀ s,
  ∃ s',
    emit_all self rs s = (Ok (), s') ∧
    ∀ l, l ≠ LogBuffer.logs self → heap s' !! l = heap s !! l.
Proof.
  induction rs as [|r rs IH]; intros s.
  - by exists s.
  - destruct (IH (emit self r s).2) as (s2 & Hrun & Hframe2).
    exists s2. split; [done|].
    intros l Hl. by rewrite Hframe2, emit_frame.
Qed.

(** What [emit] does depends on the store through the heap only, and two
    stores with the same heap are left with the same heap. *)
Lemma emit_heap_only self r s t :
  heap s = heap t →
  (emit self r s).1 = (emit self r t).1 ∧
  heap (emit self r s).2 = heap (emit self r t).2.
Proof.
  intros Hst.
  assert (Hhandled :
    (handleError r s).1 = (handleError r t).1 ∧
    heap (handleError r s).2 = heap (handleError r t).2).
  { split; [apply handleError_result|].
    destruct (handleError_store raiseExceptions stderr_set stderr_report r s)
      as (res & err & ->).
    by destruct (handleError_store raiseExceptions stderr_set stderr_report
                   r t) as (res' & err' & ->). }
  destruct (entry_of r) as [e|] eqn:He.
  - destruct (heap s !! LogBuffer.logs self) as [[d|xs]|] eqn:Hd.
    + rewrite (emit_inserts _ _ _ _ _ _ self r e d s He Hd).
      rewrite (emit_inserts _ _ _ _ _ _ self r e d t He) by (by rewrite <- Hst).
      simpl. by rewrite Hst.
    + rewrite (emit_appends _ _ _ _ _ _ self r e xs s He Hd).
      rewrite (emit_appends _ _ _ _ _ _ self r e xs t He) by (by rewrite <- Hst).
      simpl. by rewrite Hst.
    + rewrite !emit_unstored; [done|by rewrite <- Hst|done].
  - by rewrite !emit_skips.
Qed.

Lemma emit_all_heap_only self rs : ∀ s t,
  heap s = heap t →
  heap (emit_all self rs s).2 = heap (emit_all self rs t).2.
Proof.
  induction rs as [|r rs IH]; intros s t Hst; [done|].
  rewrite !emit_all_cons. apply IH. by apply emit_heap_only.
Qed.


(** C5. A snapshot that returns hands out a list object of its own: it
    holds the entries stored at that moment, oldest first; it is not the
    buffer's deque; taking it leaves the buffer as it was; and whatever is
    emitted afterwards, the list still holds what it held. *)
Theorem snapshot_is_independent_copy
    (self : LogBuffer.t) (s0 s1 : store) (snap : loc) :
  LogBuffer.snapshot self s0 = (Ok snap, s1) →
  heap s1 !! snap = Some (OList (contents (LogBuffer.logs self) s0)) ∧
  snap ≠ LogBuffer.logs self ∧
  contents (LogBuffer.logs self) s1 = contents (LogBuffer.logs self) s0 ∧
  ∀ records,
    (emit_all self records s1).1 = Ok () ∧
    heap (emit_all self records s1).2 !! snap = heap s1 !! snap ∧
    contents snap (emit_all self records s1).2 =
      contents (LogBuffer.logs self) s0.
Proof.
  unfold LogBuffer.snapshot, alloc. intros Hsnap.
  assert (Hfresh : heap s0 !! fresh (dom (heap s0)) = None).
  { apply not_elem_of_dom, is_fresh. }
  assert (Hne : is_Some (heap s0 !! LogBuffer.logs self) →
                fresh (dom (heap s0)) ≠ LogBuffer.logs self).
  { intros [o Ho] Heq. rewrite Heq in Hfresh. congruence. }
  assert (Hgoal :
    heap s1 !! snap = Some (OList (contents (LogBuffer.logs self) s0)) ∧
    snap ≠ LogBuffer.logs self ∧
    contents (LogBuffer.logs self) s1 = contents (LogBuffer.logs self) s0).
  { unfold contents.
    destruct (heap s0 !! LogBuffer.logs self) as [[d|xs]|] eqn:Hd;
      [| |done]; injection Hsnap as <- <-; simpl;
      (split; [by rewrite lookup_insert_eq|]);
      (split; [by apply Hne|]);
      rewrite lookup_insert_ne by (by apply Hne); by rewrite Hd. }
  destruct Hgoal as (Hlist & Hdiff & Hbuf).
  repeat split; try done;
    destruct (emit_all_frame self records s1) as (s2 & Hrun & Hframe);
    rewrite Hrun; simpl; [done|by apply Hframe|].
  unfold contents at 1. by rewrite (Hframe snap Hdiff), Hlist.
Qed.
End LogBufferClaims.

(** The claims at work on a buffer of capacity 2 that has seen three
    records, then one that does not format. *)
Example buffer_of_two_keeps_last_two :
  contents 0
    (LogBuffer.emit_all Sample.format Sample.created_isoformat
       Sample.levelname true true Sample.stderr_report
       (LogBuffer.mk 0) ["boot"; "%d"; "ready"; "serving"]
       (LogBuffer.__init__ (Some 2%Z) Sample.store0).2).2
  = [Sample.entry "ready"; Sample.entry "serving"].
Proof. vm_compute. reflexivity. Qed.



(** C5 on that buffer: the list taken before two more records still holds
    the two entries it was given, while the deque has moved on. *)
Lemma snapshot_is_independent_copy_witness :
  let s0 := (LogBuffer.emit_all Sample.format Sample.created_isoformat
               Sample.levelname true true Sample.stderr_report
               (LogBuffer.mk 0) ["boot"; "ready"]
               (LogBuffer.__init__ (Some 2%Z) Sample.store0).2).2 in
  let s1 := (LogBuffer.snapshot (LogBuffer.mk 0) s0).2 in
  LogBuffer.snapshot (LogBuffer.mk 0) s0 = (Ok 1, s1) ∧
  contents 1
    (LogBuffer.emit_all Sample.format Sample.created_isoformat
       Sample.levelname true true Sample.stderr_report
       (LogBuffer.mk 0) ["serving"; "stopping"] s1).2
  = [Sample.entry "boot"; Sample.entry "ready"] ∧
  contents 0
    (LogBuffer.emit_all Sample.format Sample.created_isoformat
       Sample.levelname true true Sample.stderr_report
       (LogBuffer.mk 0) ["serving"; "stopping"] s1).2
  = [Sample.entry "serving"; Sample.entry "stopping"].
Proof.
  intros s0 s1.
  assert (Hsnap : LogBuffer.snapshot (LogBuffer.mk 0) s0 = (Ok 1, s1))
    by (vm_compute; reflexivity).
  destruct (snapshot_is_independent_copy Sample.format Sample.created_isoformat
              Sample.levelname true true Sample.stderr_report
              (LogBuffer.mk 0) s0 s1 1 Hsnap)
    as (_ & _ & _ & Hlater).
  destruct (Hlater ["serving"; "stopping"]) as (_ & _ & Hkept).
  split; [exact Hsnap|]. split.
  - etransitivity; [exact Hkept|]. vm_compute. reflexivity.
  - vm_compute. reflexivity.
Defined.

(** ** StatsApp *)

Section StatsAppClaims.
Context (open_read : string → Res string).

Lemma index_found self content s :
  open_read (path_join (StatsApp.html_dir self) "index.html") = Ok content →
  StatsApp.index open_read self s = (Ok content, s).
Proof. intros H. unfold StatsApp.index, try_except, lift. by rewrite H. Qed.

Lemma index_not_found self e s :
  open_read (path_join (StatsApp.html_dir self) "index.html") = Raise e →
  is_FileNotFoundError e = true →
  StatsApp.index open_read self s =
    (Raise (HTTPError 404
              "Application not found. Please build the frontend first."), s).
Proof.
  intros H He. unfold StatsApp.index, try_except, lift. by rewrite H, He.
Qed.

Lemma index_unreadable self e s :
  open_read (path_join (StatsApp.html_dir self) "index.html") = Raise e →
  is_FileNotFoundError e = false →
  StatsApp.index open_read self s =
    (Raise (HTTPError 500 "Internal server error"),
     set_log_calls
       (λ l, l ++ [("ERROR", "Error serving index.html: " +:+ exn_str e)]) s).
Proof.
  intros H He. unfold StatsApp.index, try_except, lift. by rewrite H, He.
Qed.

(** The dispatcher never looks at [kwargs]. *)
Lemma default_kwargs self method args kwargs kwargs' s :
  StatsApp.default open_read self method args kwargs s =
  StatsApp.default open_read self method args kwargs' s.
Proof. reflexivity. Qed.

(** Outside OPTIONS and the API prefix the dispatcher is [index]. *)
Lemma default_is_index self method args kwargs s :
  method ≠ "OPTIONS" → head args ≠ Some "api" →
  StatsApp.default open_read self method args kwargs s =
  StatsApp.index open_read self s.
Proof.
  intros Hm Ha. unfold StatsApp.default.
  rewrite bool_decide_eq_false_2 by done.
  destruct args as [|a rest]; [done|].
  rewrite bool_decide_eq_false_2; [done|]. simpl in Ha. congruence.
Qed.

(** C2, amended. For every request whose method is not OPTIONS and whose
    first path segment is "api", the dispatcher raises [NotFound], leaving
    the path to the delegate's routing: it returns no body, neither the
    entry document nor one of its own, and touches nothing. *)
Theorem api_prefix_is_passed_through self method rest kwargs s :
  method ≠ "OPTIONS" →
  StatsApp.default open_read self method ("api" :: rest) kwargs s =
    (Raise NotFound, s) ∧
  ∀ body,
    (StatsApp.default open_read self method ("api" :: rest) kwargs s).1
      ≠ Ok body.
Proof.
  intros Hm.
  assert (H : StatsApp.default open_read self method ("api" :: rest) kwargs s
              = (Raise NotFound, s)).
  { unfold StatsApp.default. by rewrite bool_decide_eq_false_2. }
  split; [done|]. intros body. by rewrite H.
Qed.

(** C3. For every request whose method is not OPTIONS and whose first path
    segment is not "api" (no segment at all for the root path, any number
    of segments, naming files or not), the dispatcher's answer is that of
    [index]: the content of the entry document when it can be read; and it
    is the same answer for all such requests. *)
Theorem other_paths_serve_entry_document self method args kwargs s :
  method ≠ "OPTIONS" → head args ≠ Some "api" →
  StatsApp.default open_read self method args kwargs s =
    StatsApp.index open_read self s ∧
  (∀ content,
     open_read (path_join (StatsApp.html_dir self) "index.html") = Ok content →
     StatsApp.default open_read self method args kwargs s = (Ok content, s)) ∧
  (∀ method' args' kwargs',
     method' ≠ "OPTIONS" → head args' ≠ Some "api" →
     StatsApp.default open_read self method' args' kwargs' s =
     StatsApp.default open_read self method args kwargs s).
Proof.
  intros Hm Ha. split; [by apply default_is_index|]. split.
  - intros content Hread. rewrite default_is_index by done.
    by apply index_found.
  - intros method' args' kwargs' Hm' Ha'. by rewrite !default_is_index.
Qed.

(** C4. For every request with method OPTIONS, whatever its path and
    query, the dispatcher returns the empty body at once: nothing is read,
    nothing is written, and the pass-through signal is not raised. *)
Theorem options_returns_empty self args kwargs s :
  StatsApp.default open_read self "OPTIONS" args kwargs s = (Ok "", s) ∧
  (StatsApp.default open_read self "OPTIONS" args kwargs s).1
    ≠ Raise NotFound.
Proof. split; [reflexivity|discriminate]. Qed.

(** C8. When the entry document cannot be read, [index] raises an
    [HTTPError]: 404 with the hint to build the frontend when the file is
    missing, 500 with a fixed message that carries nothing of the error or
    of the path on any other failure.  The error that was caught is never
    what [index] raises. *)
Theorem index_translates_read_failures self e s :
  open_read (path_join (StatsApp.html_dir self) "index.html") = Raise e →
  (StatsApp.index open_read self s).1 =
    Raise (if is_FileNotFoundError e
           then HTTPError 404
                  "Application not found. Please build the frontend first."
           else HTTPError 500 "Internal server error") ∧
  ∀ cls detail,
    (StatsApp.index open_read self s).1 ≠ Raise (PyError cls detail).
Proof.
  intros Hread.
  assert (H : (StatsApp.index open_read self s).1 =
    Raise (if is_FileNotFoundError e
           then HTTPError 404
                  "Application not found. Please build the frontend first."
           else HTTPError 500 "Internal server error")).
  { destruct (is_FileNotFoundError e) eqn:He.
    - by rewrite (index_not_found self e s Hread He).
    - by rewrite (index_unreadable self e s Hread He). }
  split; [done|]. intros cls detail. rewrite H.
  by destruct (is_FileNotFoundError e).
Qed.

(** C10. For every request whose method is not OPTIONS and whose first
    path segment is not "api", two requests that differ only in their
    query parameters get the same answer and leave the same store. *)
Theorem default_ignores_query self method args kwargs kwargs' s :
  method ≠ "OPTIONS" → head args ≠ Some "api" →
  StatsApp.default open_read self method args kwargs s =
  StatsApp.default open_read self method args kwargs' s.
Proof. intros _ _. apply default_kwargs. Qed.
End StatsAppClaims.

(** A pre-flight request under the API prefix is answered by the
    dispatcher itself, so C2 does not hold for every method. *)
Lemma api_prefix_options_counterexample :
  head ["api"; "foo"] = Some "api" ∧
  (StatsApp.default Sample.open_read (Sample.app "/srv/www") "OPTIONS"
     ["api"; "foo"] ∅ Sample.store0).1 = Ok "" ∧
  (StatsApp.default Sample.open_read (Sample.app "/srv/www") "OPTIONS"
     ["api"; "foo"] ∅ Sample.store0).1 ≠ Raise NotFound.
Proof.
  split; [reflexivity|]. split; [reflexivity|].
  intros H. vm_compute in H. discriminate H.
Qed.

(** C2, amended, on [GET /api/stats]. *)
Lemma api_prefix_is_passed_through_witness :
  "GET" ≠ "OPTIONS" ∧
  StatsApp.default Sample.open_read (Sample.app "/srv/www") "GET"
    ["api"; "stats"] ∅ Sample.store0 = (Raise NotFound, Sample.store0).
Proof.
  assert (Hm : "GET" ≠ "OPTIONS") by discriminate.
  split; [exact Hm|].
  exact (proj1 (api_prefix_is_passed_through Sample.open_read
                  (Sample.app "/srv/www") "GET" ["stats"] ∅ Sample.store0 Hm)).
Defined.

(** C3 on [GET /dashboard], [POST /deep/nested/path] and [GET /]. *)
Lemma other_paths_serve_entry_document_witness :
  "GET" ≠ "OPTIONS" ∧ head ["dashboard"] ≠ Some "api" ∧
  StatsApp.default Sample.open_read (Sample.app "/srv/www") "GET"
    ["dashboard"] ∅ Sample.store0 = (Ok "<html>OK</html>", Sample.store0) ∧
  StatsApp.default Sample.open_read (Sample.app "/srv/www") "POST"
    ["deep"; "nested"; "path"] ∅ Sample.store0
  = StatsApp.default Sample.open_read (Sample.app "/srv/www") "GET"
      ["dashboard"] ∅ Sample.store0 ∧
  StatsApp.default Sample.open_read (Sample.app "/srv/www") "GET"
    [] ∅ Sample.store0
  = StatsApp.default Sample.open_read (Sample.app "/srv/www") "GET"
      ["dashboard"] ∅ Sample.store0.
Proof.
  assert (Hget : "GET" ≠ "OPTIONS") by discriminate.
  assert (Hpost : "POST" ≠ "OPTIONS") by discriminate.
  assert (Hdash : head ["dashboard"] ≠ Some "api") by discriminate.
  assert (Hdeep : head ["deep"; "nested"; "path"] ≠ Some "api") by discriminate.
  assert (Hroot : head (@nil string) ≠ Some "api") by discriminate.
  destruct (other_paths_serve_entry_document Sample.open_read
              (Sample.app "/srv/www") "GET" ["dashboard"] ∅ Sample.store0
              Hget Hdash) as (_ & Hdoc & Hsame).
  split; [exact Hget|]. split; [exact Hdash|]. split; [|split].
  - apply Hdoc. reflexivity.
  - exact (Hsame "POST" ["deep"; "nested"; "path"] ∅ Hpost Hdeep).
  - exact (Hsame "GET" [] ∅ Hget Hroot).
Defined.

(** C8 on a web root without entry document and on an unreadable one. *)
Lemma index_translates_read_failures_witness :
  (StatsApp.index Sample.open_read (Sample.app "/srv/empty") Sample.store0).1
  = Raise (HTTPError 404
             "Application not found. Please build the frontend first.") ∧
  (StatsApp.index Sample.open_read (Sample.app "/srv/locked") Sample.store0).1
  = Raise (HTTPError 500 "Internal server error").
Proof.
  split.
  - exact (proj1 (index_translates_read_failures Sample.open_read
                    (Sample.app "/srv/empty")
                    (PyError "FileNotFoundError"
                       "[Errno 2] No such file or directory: /srv/empty/index.html")
                    Sample.store0 eq_refl)).
  - exact (proj1 (index_translates_read_failures Sample.open_read
                    (Sample.app "/srv/locked")
                    (PyError "PermissionError"
                       "[Errno 13] Permission denied: '/srv/locked/index.html'")
                    Sample.store0 eq_refl)).
Defined.

(** C10 on [GET /dashboard] and [GET /dashboard?tab=logs]. *)
Lemma default_ignores_query_witness :
  "GET" ≠ "OPTIONS" ∧ head ["dashboard"] ≠ Some "api" ∧
  StatsApp.default Sample.open_read (Sample.app "/srv/www") "GET"
    ["dashboard"] ∅ Sample.store0
  = StatsApp.default Sample.open_read (Sample.app "/srv/www") "GET"
      ["dashboard"] {[ "tab" := "logs" ]} Sample.store0.
Proof.
  assert (Hget : "GET" ≠ "OPTIONS") by discriminate.
  assert (Hdash : head ["dashboard"] ≠ Some "api") by discriminate.
  split; [exact Hget|]. split; [exact Hdash|].
  exact (default_ignores_query Sample.open_read (Sample.app "/srv/www")
           "GET" ["dashboard"] ∅ {[ "tab" := "logs" ]} Sample.store0 Hget Hdash).
Defined.

(** ** HTTPStatsServer *)

(** Closed goals about sets and maps, settled by their decision procedure. *)
Ltac decide_by_evaluation :=
  apply (bool_decide_unpack _); vm_compute; exact I.

Section HTTPStatsServerClaims.
Context (module_dir : string) (isdir : string → bool).

Local Abbreviation route_config :=
  (HTTPStatsServer.route_config module_dir isdir).
Local Abbreviation web_root self :=
  (get_web_path (HTTPStatsServer.config self) (default_html_dir module_dir)).

(** Case analysis on the two directory tests and the CORS flag, after
    which the table is a closed dict up to the paths stored in it. *)
Local Ltac route_cases self :=
  unfold HTTPStatsServer.route_config;
  generalize (path_join (web_root self) "assets");
  generalize (path_join (web_root self) "_next");
  generalize (web_root self);
  generalize (HTTPStatsServer._cors_enabled self);
  intros cors html_dir next_dir assets_dir;
  destruct (isdir assets_dir), (isdir next_dir), cors.

(** Closed goals about sets and maps, settled by their decision procedure. *)

(** The paths of the route table. *)
Lemma route_config_dom self :
  dom (route_config self) =
    {["/"; "/favicon.ico"]}
    ∪ (if isdir (path_join (web_root self) "assets") then {["/assets"]} else ∅)
    ∪ (if isdir (path_join (web_root self) "_next") then {["/_next"]} else ∅).
Proof. route_cases self; decide_by_evaluation. Qed.

Lemma assets_mounted self :
  bool_decide ("/assets" ∈ dom (route_config self)) =
    isdir (path_join (web_root self) "assets").
Proof. route_cases self; vm_compute; exact eq_refl. Qed.

Lemma next_mounted self :
  bool_decide ("/_next" ∈ dom (route_config self)) =
    isdir (path_join (web_root self) "_next").
Proof. route_cases self; vm_compute; exact eq_refl. Qed.

Lemma base_mounted self :
  bool_decide ({["/"; "/favicon.ico"]} ⊆ dom (route_config self)) = true.
Proof. route_cases self; vm_compute; exact eq_refl. Qed.

(** The outcome of [start] does not depend on which directories exist. *)
Lemma start_outcome_ignores_dirs isdir' cors_install engine_start self s :
  (HTTPStatsServer.start module_dir isdir cors_install engine_start self s).1 =
  (HTTPStatsServer.start module_dir isdir' cors_install engine_start self s).1.
Proof.
  unfold HTTPStatsServer.start, HTTPStatsServer._setup_server_cors.
  generalize (route_config self).
  generalize (HTTPStatsServer.route_config module_dir isdir' self).
  intros table' table.
  destruct (HTTPStatsServer._cors_enabled self),
    cors_install as [[]|e], engine_start as [[]|e']; reflexivity.
Qed.

(** A [start] that returns has mounted the route table under "/". *)
Lemma start_mounts_route_config cors_install engine_start self s :
  (HTTPStatsServer.start module_dir isdir cors_install engine_start self s).1
    = Ok () →
  tree (cherrypy
          (HTTPStatsServer.start module_dir isdir cors_install engine_start
             self s).2) !! "/"
    = Some (route_config self).
Proof.
  unfold HTTPStatsServer.start, HTTPStatsServer._setup_server_cors.
  generalize (route_config self). intros table.
  destruct (HTTPStatsServer._cors_enabled self),
    cors_install as [[]|e], engine_start as [[]|e'];
    try discriminate; intros _; apply lookup_insert_eq.
Qed.

(** C6. The route table that [start] builds and mounts has an "/assets"
    entry exactly when [assets] under the web root is a directory, and a
    "/_next" entry exactly when [_next] is; "/" and "/favicon.ico" are
    always there, and are all there is when neither directory exists.
    Whether the directories exist has no bearing on whether [start]
    succeeds.  The "/assets" entry, when there, is a static-directory
    mapping: the static-directory tool is switched on and its directory is
    [assets] under the web root; likewise "/_next" with [_next]; the
    "/favicon.ico" entry is the static-file mapping of favicon.ico under
    the web root, and neither it nor "/" is a static directory. *)
Theorem route_table_follows_directories self :
  ("/assets" ∈ dom (route_config self) ↔
     isdir (path_join (web_root self) "assets") = true) ∧
  ("/_next" ∈ dom (route_config self) ↔
     isdir (path_join (web_root self) "_next") = true) ∧
  {["/"; "/favicon.ico"]} ⊆ dom (route_config self) ∧
  (isdir (path_join (web_root self) "assets") = false →
   isdir (path_join (web_root self) "_next") = false →
   dom (route_config self) = {["/"; "/favicon.ico"]}) ∧
  (∀ cors_install engine_start s,
    (HTTPStatsServer.start module_dir isdir cors_install engine_start self s).1
      = (HTTPStatsServer.start module_dir (λ _, false) cors_install
           engine_start self s).1 ∧
    ((HTTPStatsServer.start module_dir isdir cors_install engine_start self s).1
       = Ok () →
     tree (cherrypy
             (HTTPStatsServer.start module_dir isdir cors_install engine_start
                self s).2) !! "/"
       = Some (route_config self))) ∧
  setting_at (route_config self) "/assets" "tools.staticdir.on" =
    (if isdir (path_join (web_root self) "assets")
     then Some (SBool true) else None) ∧
  setting_at (route_config self) "/assets" "tools.staticdir.dir" =
    (if isdir (path_join (web_root self) "assets")
     then Some (SStr (path_join (web_root self) "assets")) else None) ∧
  setting_at (route_config self) "/_next" "tools.staticdir.on" =
    (if isdir (path_join (web_root self) "_next")
     then Some (SBool true) else None) ∧
  setting_at (route_config self) "/_next" "tools.staticdir.dir" =
    (if isdir (path_join (web_root self) "_next")
     then Some (SStr (path_join (web_root self) "_next")) else None) ∧
  setting_at (route_config self) "/favicon.ico" "tools.staticfile.on" =
    Some (SBool true) ∧
  setting_at (route_config self) "/favicon.ico" "tools.staticfile.filename" =
    Some (SStr (path_join (web_root self) "favicon.ico")) ∧
  setting_at (route_config self) "/" "tools.staticdir.on" = None ∧
  setting_at (route_config self) "/favicon.ico" "tools.staticdir.on" = None.
Proof.
  split; [rewrite <- assets_mounted; symmetry; apply bool_decide_eq_true|].
  split; [rewrite <- next_mounted; symmetry; apply bool_decide_eq_true|].
  split; [eapply bool_decide_eq_true_1, base_mounted|].
  split.
  { intros Ha Hn. rewrite route_config_dom, Ha, Hn. decide_by_evaluation. }
  split.
  { intros cors_install engine_start s. split.
    - apply start_outcome_ignores_dirs.
    - apply start_mounts_route_config. }
  route_cases self; vm_compute; repeat split.
Qed.

(** C7, amended. Whatever the web root, the route table has the root
    entry, with content-type rules for js, css, html (utf-8), svg and txt,
    and the favicon entry, a static file under the web root.  The rule
    sending map to application/json is carried, with js and css, by the
    "/assets" and "/_next" entries only: it is in the table exactly when
    one of the two directories exists. *)
Theorem route_table_content_types self :
  {["/"; "/favicon.ico"]} ⊆ dom (route_config self) ∧
  setting_at (route_config self) "/" "tools.sessions.on" = Some (SBool false) ∧
  setting_at (route_config self) "/" "tools.staticfile.content_types" =
    Some (STypes (list_to_map [
      ("js", "application/javascript");
      ("css", "text/css");
      ("html", "text/html; charset=utf-8");
      ("svg", "image/svg+xml");
      ("txt", "text/plain")])) ∧
  setting_at (route_config self) "/favicon.ico" "tools.staticfile.on" =
    Some (SBool true) ∧
  setting_at (route_config self) "/favicon.ico" "tools.staticfile.filename" =
    Some (SStr (path_join (web_root self) "favicon.ico")) ∧
  setting_at (route_config self) "/assets" "tools.staticdir.content_types" =
    (if isdir (path_join (web_root self) "assets")
     then Some (STypes (list_to_map [
       ("js", "application/javascript");
       ("css", "text/css");
       ("map", "application/json")]))
     else None) ∧
  setting_at (route_config self) "/_next" "tools.staticdir.content_types" =
    (if isdir (path_join (web_root self) "_next")
     then Some (STypes (list_to_map [
       ("js", "application/javascript");
       ("css", "text/css");
       ("map", "application/json")]))
     else None) ∧
  has_rule (route_config self) "js" "application/javascript" = true ∧
  has_rule (route_config self) "css" "text/css" = true ∧
  has_rule (route_config self) "html" "text/html; charset=utf-8" = true ∧
  has_rule (route_config self) "svg" "image/svg+xml" = true ∧
  has_rule (route_config self) "txt" "text/plain" = true ∧
  has_rule (route_config self) "map" "application/json" =
    isdir (path_join (web_root self) "assets")
    || isdir (path_join (web_root self) "_next").
Proof.
  split; [eapply bool_decide_eq_true_1, base_mounted|].
  route_cases self; vm_compute; repeat split.
Qed.
End HTTPStatsServerClaims.

(** With neither directory under the web root, no entry of the route table
    maps map to application/json, so C7 does not hold for every web root. *)
Lemma route_table_map_rule_counterexample :
  dom (HTTPStatsServer.route_config Sample.module_dir Sample.isdir
         (Sample.server "/srv/empty" false)) = {["/"; "/favicon.ico"]} ∧
  has_rule
    (HTTPStatsServer.route_config Sample.module_dir Sample.isdir
       (Sample.server "/srv/empty" false))
    "map" "application/json" = false.
Proof. split; [decide_by_evaluation|vm_compute; exact eq_refl]. Qed.

(** C6 on a web root with [assets] only, and on one with neither. *)
Lemma route_table_follows_directories_witness :
  Sample.isdir "/srv/www/assets" = true ∧
  Sample.isdir "/srv/www/_next" = false ∧
  "/assets" ∈ dom (HTTPStatsServer.route_config Sample.module_dir Sample.isdir
                     (Sample.server "/srv/www" true)) ∧
  Sample.isdir "/srv/empty/assets" = false ∧
  Sample.isdir "/srv/empty/_next" = false ∧
  dom (HTTPStatsServer.route_config Sample.module_dir Sample.isdir
         (Sample.server "/srv/empty" true)) = {["/"; "/favicon.ico"]}.
Proof.
  assert (Ha : Sample.isdir "/srv/www/assets" = true) by reflexivity.
  assert (Hn : Sample.isdir "/srv/www/_next" = false) by reflexivity.
  assert (Ha' : Sample.isdir "/srv/empty/assets" = false) by reflexivity.
  assert (Hn' : Sample.isdir "/srv/empty/_next" = false) by reflexivity.
  destruct (route_table_follows_directories Sample.module_dir Sample.isdir
              (Sample.server "/srv/www" true)) as ([_ Hin] & _).
  destruct (route_table_follows_directories Sample.module_dir Sample.isdir
              (Sample.server "/srv/empty" true)) as (_ & _ & _ & Hnone & _).
  split; [exact Ha|]. split; [exact Hn|]. split; [exact (Hin Ha)|].
  split; [exact Ha'|]. split; [exact Hn'|]. exact (Hnone Ha' Hn').
Defined.

(** * Further properties *)

(** ** LogBuffer: bounds, provenance, separation *)

Lemma deque_append_unbounded xs : ∀ l,
  fold_left deque_append xs (Deque None l) = Deque None (l ++ xs).
Proof.
  induction xs as [|x xs IH]; intros l; simpl.
  - by rewrite app_nil_r.
  - unfold deque_append at 2. simpl. rewrite IH. by rewrite <- app_assoc.
Qed.

(** Whatever its bound, a deque only ever holds what it held or was given. *)
Lemma deque_append_fold_elem xs : ∀ d e,
  e ∈ items (fold_left deque_append xs d) → e ∈ items d ∨ e ∈ xs.
Proof.
  induction xs as [|x xs IH]; intros d e He; simpl in *; [by left|].
  apply IH in He as [He|He]; [|right; by apply list_elem_of_further].
  assert (Hin : e ∈ items d ++ [x]).
  { unfold deque_append in He. destruct (maxlen d) as [n|]; [|done].
    case_decide; [|done]. simpl in He. rewrite tail_drop in He.
    by apply (subseteq_drop 1). }
  apply elem_of_app in Hin as [Hin|Hin]; [by left|].
  right. apply list_elem_of_singleton in Hin as ->. apply list_elem_of_here.
Qed.

(** A constructor call that returns has allocated one empty deque, at a
    location nothing lived at, and changed nothing else. *)
Lemma init_returns max_lines self s s' :
  LogBuffer.__init__ max_lines s = (Ok self, s') →
  heap s !! LogBuffer.logs self = None ∧
  s' = set_heap
         (<[LogBuffer.logs self := ODeque (Deque (Z.to_nat <$> max_lines) [])]>) s.
Proof.
  assert (Hfresh : heap s !! fresh (dom (heap s)) = None)
    by apply not_elem_of_dom, is_fresh.
  unfold LogBuffer.__init__. destruct max_lines as [n|].
  - case_decide; [done|].
    unfold mbind, M_bind, alloc, mret, M_ret. simpl.
    by intros [= <- <-].
  - unfold mbind, M_bind, alloc, mret, M_ret. simpl.
    by intros [= <- <-].
Qed.

Section LogBufferMore.
Context {LogRecord : Type}.
Context (format created_isoformat : LogRecord → Res string).
Context (levelname : LogRecord → string) (raiseExceptions : bool).
Context (stderr_set : bool).
Context (stderr_report : LogRecord → list string * option exn).

(** X1. A buffer built with [max_lines=None] never evicts: after any run
    of [emit] it holds every entry that was inserted, in order. *)
Theorem unbounded_buffer_keeps_everything
    (records : list LogRecord) (s0 : store) :
  ∃ self s1 s2,
    LogBuffer.__init__ None s0 = (Ok self, s1) ∧
    LogBuffer.emit_all format created_isoformat levelname raiseExceptions
      stderr_set stderr_report
      self records s1 = (Ok (), s2) ∧
    contents (LogBuffer.logs self) s2 =
      LogBuffer.inserted format created_isoformat levelname records.
Proof.
  set (self := LogBuffer.mk (fresh (dom (heap s0)))).
  set (s1 := set_heap (<[LogBuffer.logs self := ODeque (Deque None [])]>) s0).
  assert (Hlive : heap s1 !! LogBuffer.logs self = Some (ODeque (Deque None [])))
    by (subst s1; simpl; by rewrite lookup_insert_eq).
  destruct (emit_all_spec format created_isoformat levelname raiseExceptions
    stderr_set stderr_report
              self records s1 _ Hlive) as (s2 & Hrun & Hheap).
  exists self, s1, s2. split; [done|]. split; [done|].
  unfold contents. rewrite Hheap, lookup_insert_eq.
  by rewrite deque_append_unbounded.
Qed.

(** X2. Whatever the bound, every entry found in a buffer after a run of
    [emit] was built from one of the emitted records: its message is that
    record's formatted text, its timestamp that record's, its level that
    record's level name.  Nothing is stored that was not emitted. *)
Theorem stored_entries_come_from_records
    (max_lines : option Z) (records : list LogRecord)
    (self : LogBuffer.t) (s0 s1 : store) (e : LogEntry) :
  LogBuffer.__init__ max_lines s0 = (Ok self, s1) →
  e ∈ contents (LogBuffer.logs self)
        (LogBuffer.emit_all format created_isoformat levelname raiseExceptions
          stderr_set stderr_report
           self records s1).2 →
  ∃ r, r ∈ records ∧
       format r = Ok (message e) ∧
       created_isoformat r = Ok (timestamp e) ∧
       levelname r = level e.
Proof.
  intros Hinit He.
  destruct (init_returns _ _ _ _ Hinit) as [_ ->].
  set (d := Deque (Z.to_nat <$> max_lines) []) in *.
  destruct (emit_all_spec format created_isoformat levelname raiseExceptions
    stderr_set stderr_report
              self records (set_heap (<[LogBuffer.logs self := ODeque d]>) s0) d)
    as (s2 & Hrun & Hheap); [simpl; by rewrite lookup_insert_eq|].
  rewrite Hrun in He. simpl in He.
  unfold contents in He. rewrite Hheap, lookup_insert_eq in He.
  apply deque_append_fold_elem in He as [He|He]; [by apply elem_of_nil in He|].
  apply list_elem_of_omap in He as (r & Hr & Hentry).
  exists r. split; [done|].
  unfold LogBuffer.entry_of in Hentry.
  destruct (format r) as [msg|]; [|done].
  destruct (created_isoformat r) as [ts|]; [|done].
  by injection Hentry as <-.
Qed.

(** X3. [emit] never calls the module logger and never touches the
    CherryPy globals, so capturing a record cannot feed back into the
    logging facility; and a record that is stored writes nothing to
    [sys.stderr] either: its only effect is on the buffer's own deque. *)
Theorem emit_only_writes_its_deque
    (self : LogBuffer.t) (record : LogRecord) (s : store) :
  let s' := (LogBuffer.emit format created_isoformat levelname raiseExceptions
    stderr_set stderr_report
               self record s).2 in
  log_calls s' = log_calls s ∧
  cherrypy s' = cherrypy s ∧
  (∀ l, l ≠ LogBuffer.logs self → heap s' !! l = heap s !! l) ∧
  (is_Some (LogBuffer.entry_of format created_isoformat levelname record) →
   is_Some (heap s !! LogBuffer.logs self) →
   stderr s' = stderr s).
Proof.
  intros s'. subst s'.
  destruct (LogBuffer.entry_of format created_isoformat levelname record)
    as [e|] eqn:He.
  - destruct (heap s !! LogBuffer.logs self) as [[d|xs]|] eqn:Hd.
    + rewrite (emit_inserts _ _ _ _ _ _ self record e d s He Hd). simpl.
      repeat split; try done. intros l Hl. by rewrite lookup_insert_ne.
    + rewrite (emit_appends _ _ _ _ _ _ self record e xs s He Hd). simpl.
      repeat split; try done. intros l Hl. by rewrite lookup_insert_ne.
    + rewrite (emit_unstored _ _ _ _ _ _ self record s Hd).
      destruct (handleError_store raiseExceptions stderr_set stderr_report
                  record s) as (res & err & ->).
      repeat split; try done; by intros _ [? ?].
  - rewrite (emit_skips _ _ _ _ _ _ self record s He).
    destruct (handleError_store raiseExceptions stderr_set stderr_report
                record s) as (res & err & ->).
    repeat split; try done; by intros [? ?].
Qed.

(** X4. Two buffers built one after the other own different deques, and
    whatever is emitted to the second leaves the first one's entries as
    they are. *)
Theorem buffers_are_separate
    (m1 m2 : option Z) (a b : LogBuffer.t) (s0 s1 s2 : store)
    (records : list LogRecord) :
  LogBuffer.__init__ m1 s0 = (Ok a, s1) →
  LogBuffer.__init__ m2 s1 = (Ok b, s2) →
  LogBuffer.logs a ≠ LogBuffer.logs b ∧
  contents (LogBuffer.logs a)
    (LogBuffer.emit_all format created_isoformat levelname raiseExceptions
      stderr_set stderr_report
       b records s2).2
  = contents (LogBuffer.logs a) s2.
Proof.
  intros Ha Hb.
  destruct (init_returns _ _ _ _ Ha) as [_ ->].
  destruct (init_returns _ _ _ _ Hb) as [Hfresh ->].
  assert (Hne : LogBuffer.logs a ≠ LogBuffer.logs b).
  { intros Heq. simpl in Hfresh. rewrite <- Heq in Hfresh.
    by rewrite lookup_insert_eq in Hfresh. }
  split; [done|].
  destruct (emit_all_frame format created_isoformat levelname raiseExceptions
    stderr_set stderr_report
              b records
              (set_heap (<[LogBuffer.logs b := ODeque (Deque (Z.to_nat <$> m2) [])]>)
                 (set_heap
                    (<[LogBuffer.logs a := ODeque (Deque (Z.to_nat <$> m1) [])]>)
                    s0)))
    as (s3 & Hrun & Hframe).
  rewrite Hrun. simpl. unfold contents. by rewrite (Hframe _ Hne).
Qed.
End LogBufferMore.

(** X2 on a buffer of two that has seen three good records and a bad one:
    what it holds was emitted. *)
Lemma stored_entries_come_from_records_witness :
  let init := LogBuffer.__init__ (Some 2%Z) Sample.store0 in
  init = (Ok (LogBuffer.mk 0), init.2) ∧
  Sample.entry "serving" ∈
    contents 0
      (LogBuffer.emit_all Sample.format Sample.created_isoformat
         Sample.levelname true true Sample.stderr_report (LogBuffer.mk 0)
         ["boot"; "%d"; "ready"; "serving"] init.2).2 ∧
  ∃ r, r ∈ ["boot"; "%d"; "ready"; "serving"] ∧
       Sample.format r = Ok (message (Sample.entry "serving")).
Proof.
  intros init.
  assert (Hinit : init = (Ok (LogBuffer.mk 0), init.2))
    by (vm_compute; exact eq_refl).
  assert (Hin : Sample.entry "serving" ∈
            contents 0
              (LogBuffer.emit_all Sample.format Sample.created_isoformat
                 Sample.levelname true true Sample.stderr_report
                 (LogBuffer.mk 0)
                 ["boot"; "%d"; "ready"; "serving"] init.2).2).
  { vm_compute. apply list_elem_of_further, list_elem_of_here. }
  destruct (stored_entries_come_from_records Sample.format
              Sample.created_isoformat Sample.levelname true true Sample.stderr_report
              (Some 2%Z)
              ["boot"; "%d"; "ready"; "serving"] (LogBuffer.mk 0)
              Sample.store0 init.2 (Sample.entry "serving") Hinit Hin)
    as (r & Hr & Hfmt & _).
  split; [exact Hinit|]. split; [exact Hin|]. exists r. by split.
Defined.

(** X3 on a record that is stored: [sys.stderr] is left alone. *)
Lemma emit_only_writes_its_deque_witness :
  let s := (LogBuffer.__init__ (Some 2%Z) Sample.store0).2 in
  is_Some (LogBuffer.entry_of Sample.format Sample.created_isoformat
             Sample.levelname "boot") ∧
  is_Some (heap s !! 0) ∧
  stderr (LogBuffer.emit Sample.format Sample.created_isoformat
            Sample.levelname true true Sample.stderr_report
            (LogBuffer.mk 0) "boot" s).2 = stderr s.
Proof.
  intros s.
  assert (He : is_Some (LogBuffer.entry_of Sample.format
                          Sample.created_isoformat Sample.levelname "boot"))
    by (vm_compute; eauto).
  assert (Hl : is_Some (heap s !! 0)) by (vm_compute; eauto).
  split; [exact He|]. split; [exact Hl|].
  exact (proj2 (proj2 (proj2
    (emit_only_writes_its_deque Sample.format Sample.created_isoformat
       Sample.levelname true true Sample.stderr_report
       (LogBuffer.mk 0) "boot" s))) He Hl).
Defined.

(** X4 on a bounded and an unbounded buffer. *)
Lemma buffers_are_separate_witness :
  let i1 := LogBuffer.__init__ (Some 2%Z) Sample.store0 in
  let i2 := LogBuffer.__init__ None i1.2 in
  i1 = (Ok (LogBuffer.mk 0), i1.2) ∧
  i2 = (Ok (LogBuffer.mk 1), i2.2) ∧
  contents 0
    (LogBuffer.emit_all Sample.format Sample.created_isoformat
       Sample.levelname true true Sample.stderr_report
       (LogBuffer.mk 1) ["boot"; "ready"] i2.2).2
  = contents 0 i2.2.
Proof.
  intros i1 i2.
  assert (H1 : i1 = (Ok (LogBuffer.mk 0), i1.2)) by (vm_compute; exact eq_refl).
  assert (H2 : i2 = (Ok (LogBuffer.mk 1), i2.2)) by (vm_compute; exact eq_refl).
  split; [exact H1|]. split; [exact H2|].
  exact (proj2 (buffers_are_separate Sample.format Sample.created_isoformat
                  Sample.levelname true true Sample.stderr_report
                  (Some 2%Z) None (LogBuffer.mk 0)
                  (LogBuffer.mk 1) Sample.store0 i1.2 i2.2 ["boot"; "ready"]
                  H1 H2)).
Defined.

(** ** StatsApp: what the handlers touch *)

Section StatsAppMore.
Context (open_read : string → Res string).

(** X5. [index] changes nothing but the module logger's history, and that
    only when reading fails for a reason other than a missing file: then
    exactly one ERROR line is logged, and it carries the text of the
    error that the response withholds. *)
Theorem index_logs_only_unexpected_failures (self : StatsApp.t) (s : store) :
  let s' := (StatsApp.index open_read self s).2 in
  heap s' = heap s ∧ stderr s' = stderr s ∧ cherrypy s' = cherrypy s ∧
  log_calls s' =
    match open_read (path_join (StatsApp.html_dir self) "index.html") with
    | Ok _ => log_calls s
    | Raise e =>
        if is_FileNotFoundError e then log_calls s
        else log_calls s
               ++ [("ERROR", "Error serving index.html: " +:+ exn_str e)]
    end.
Proof.
  unfold StatsApp.index, try_except, lift.
  destruct (open_read _) as [content|e]; [done|].
  by destruct (is_FileNotFoundError e).
Qed.

(** X6. For a pre-flight request and for a request under the API prefix
    the dispatcher does not go to the file system: its answer and the
    store it leaves are the same whatever is, or is not, on disk. *)
Theorem dispatcher_skips_filesystem
    (open_read' : string → Res string) (self : StatsApp.t) (method : string)
    (args : list string) (kwargs : gmap string string) (s : store) :
  method = "OPTIONS" ∨ head args = Some "api" →
  StatsApp.default open_read self method args kwargs s =
  StatsApp.default open_read' self method args kwargs s.
Proof.
  intros [->|Ha]; [done|].
  destruct args as [|a rest]; [done|]. simpl in Ha. injection Ha as ->.
  unfold StatsApp.default. by destruct (bool_decide (method = "OPTIONS")).
Qed.
End StatsAppMore.

(** X6 on [GET /api/stats], with the frontend built and with a web
    root that cannot be read. *)
Lemma dispatcher_skips_filesystem_witness :
  head ["api"; "stats"] = Some "api" ∧
  StatsApp.default Sample.open_read (Sample.app "/srv/www") "GET"
    ["api"; "stats"] ∅ Sample.store0
  = StatsApp.default (λ _, Raise (PyError "OSError" "[Errno 5] I/O error"))
      (Sample.app "/srv/www") "GET" ["api"; "stats"] ∅ Sample.store0.
Proof.
  assert (Ha : head ["api"; "stats"] = Some "api") by reflexivity.
  split; [exact Ha|].
  exact (dispatcher_skips_filesystem Sample.open_read
           (λ _, Raise (PyError "OSError" "[Errno 5] I/O error"))
           (Sample.app "/srv/www") "GET" ["api"; "stats"] ∅ Sample.store0
           (or_intror Ha)).
Defined.

(** ** HTTPStatsServer: the route table *)

Lemma setting_at_set_nested_ne path key value table path' key' :
  key' ≠ key →
  setting_at (HTTPStatsServer.set_nested path key value table) path' key' =
  setting_at table path' key'.
Proof.
  intros Hk. unfold setting_at, HTTPStatsServer.set_nested.
  destruct (decide (path = path')) as [->|Hp].
  - rewrite lookup_alter_eq. destruct (table !! path') as [sec|]; [|done].
    simpl. by rewrite lookup_insert_ne.
  - by rewrite lookup_alter_ne.
Qed.

(** The CORS pass of [start] over a table rewrites no key but
    "cors.expose.on". *)
Lemma cors_pass_other (config : gmap string (gmap string setting)) path key :
  key ≠ "cors.expose.on" →
  setting_at
    (let config :=
       HTTPStatsServer.set_nested "/" "cors.expose.on" (SBool true) config in
     let config :=
       if bool_decide ("/assets" ∈ dom config)
       then HTTPStatsServer.set_nested "/assets" "cors.expose.on" (SBool true)
              config
       else config in
     let config :=
       if bool_decide ("/_next" ∈ dom config)
       then HTTPStatsServer.set_nested "/_next" "cors.expose.on" (SBool true)
              config
       else config in
     HTTPStatsServer.set_nested "/favicon.ico" "cors.expose.on" (SBool true)
       config)
    path key
  = setting_at config path key.
Proof.
  intros Hk. cbv zeta.
  rewrite setting_at_set_nested_ne by done.
  destruct (bool_decide ("/_next" ∈ _));
    rewrite ?setting_at_set_nested_ne by done;
    destruct (bool_decide ("/assets" ∈ _));
    by rewrite ?setting_at_set_nested_ne by done.
Qed.

(** Apart from the "cors.expose.on" keys the table is the one built with
    CORS off. *)
Lemma route_table_cors_other html_dir assets_dir next_dir a n c path key :
  key ≠ "cors.expose.on" →
  setting_at (HTTPStatsServer.route_table html_dir assets_dir next_dir a n c)
    path key =
  setting_at (HTTPStatsServer.route_table html_dir assets_dir next_dir a n false)
    path key.
Proof.
  intros Hk. destruct c; [|done].
  exact (cors_pass_other
           (HTTPStatsServer.route_table html_dir assets_dir next_dir a n false)
           path key Hk).
Qed.

Section RouteTableMore.
Context (module_dir : string) (isdir : string → bool).

Local Abbreviation web_root self :=
  (get_web_path (HTTPStatsServer.config self) (default_html_dir module_dir)).

(** X7. With CORS enabled every entry of the route table that is mounted,
    the conditional ones included, is marked "cors.expose.on": True; with
    CORS disabled no entry carries the key. *)
Theorem cors_marks_every_mounted_entry (self : HTTPStatsServer.t) (path : string) :
  path ∈ dom (HTTPStatsServer.route_config module_dir isdir self) →
  setting_at (HTTPStatsServer.route_config module_dir isdir self)
    path "cors.expose.on"
  = if HTTPStatsServer._cors_enabled self then Some (SBool true) else None.
Proof.
  rewrite route_config_dom. unfold HTTPStatsServer.route_config.
  generalize (path_join (web_root self) "assets").
  generalize (path_join (web_root self) "_next").
  generalize (web_root self).
  generalize (HTTPStatsServer._cors_enabled self).
  intros cors html_dir next_dir assets_dir.
  destruct (isdir assets_dir), (isdir next_dir), cors;
    intros Hin; set_unfold in Hin; destruct_or!; subst;
    try done; vm_compute; exact eq_refl.
Qed.

(** X8. The CORS flag decides the "cors.expose.on" keys and nothing else:
    two servers with the same configuration bag agree on every other
    setting of every entry of their route tables. *)
Theorem cors_flag_changes_nothing_else
    (self self' : HTTPStatsServer.t) (path key : string) :
  HTTPStatsServer.config self = HTTPStatsServer.config self' →
  key ≠ "cors.expose.on" →
  setting_at (HTTPStatsServer.route_config module_dir isdir self) path key =
  setting_at (HTTPStatsServer.route_config module_dir isdir self') path key.
Proof.
  intros Hcfg Hk. unfold HTTPStatsServer.route_config. rewrite Hcfg.
  rewrite (route_table_cors_other _ _ _ _ _
             (HTTPStatsServer._cors_enabled self)) by done.
  by rewrite (route_table_cors_other _ _ _ _ _
                (HTTPStatsServer._cors_enabled self')) by done.
Qed.

(** X9. An entry of the route table that names a static directory is
    "/assets" or "/_next", and the directory it names is the one under the
    web root that [os.path.isdir] found: no directory is mounted that was
    not there at start. *)
Theorem static_dirs_were_found
    (self : HTTPStatsServer.t) (path dir : string) :
  setting_at (HTTPStatsServer.route_config module_dir isdir self)
    path "tools.staticdir.dir" = Some (SStr dir) →
  isdir dir = true ∧
  (path = "/assets" ∧ dir = path_join (web_root self) "assets" ∨
   path = "/_next" ∧ dir = path_join (web_root self) "_next").
Proof.
  intros H.
  assert (Hin : path ∈ dom (HTTPStatsServer.route_config module_dir isdir self)).
  { apply elem_of_dom. unfold setting_at in H.
    destruct (_ !! path) as [sec|]; [by eexists|done]. }
  revert Hin H.
  rewrite route_config_dom. unfold HTTPStatsServer.route_config.
  generalize (path_join (web_root self) "assets").
  generalize (path_join (web_root self) "_next").
  generalize (web_root self).
  generalize (HTTPStatsServer._cors_enabled self).
  intros cors html_dir next_dir assets_dir.
  destruct (isdir assets_dir) eqn:Ha, (isdir next_dir) eqn:Hn, cors;
    intros Hin H; set_unfold in Hin; destruct_or!; subst;
    try contradiction; vm_compute in H; try discriminate H;
    injection H as <-; split; auto.
Qed.
End RouteTableMore.

(** X7 on the sample web root, which has [assets] but no [_next]. *)
Lemma cors_marks_every_mounted_entry_witness :
  "/assets" ∈ dom (HTTPStatsServer.route_config Sample.module_dir Sample.isdir
                     (Sample.server "/srv/www" true)) ∧
  setting_at (HTTPStatsServer.route_config Sample.module_dir Sample.isdir
                (Sample.server "/srv/www" true)) "/assets" "cors.expose.on"
  = Some (SBool true).
Proof.
  assert (Hin : "/assets" ∈ dom (HTTPStatsServer.route_config Sample.module_dir
                                   Sample.isdir (Sample.server "/srv/www" true)))
    by decide_by_evaluation.
  split; [exact Hin|].
  exact (cors_marks_every_mounted_entry Sample.module_dir Sample.isdir
           (Sample.server "/srv/www" true) "/assets" Hin).
Defined.

(** X8 on the sample server with CORS on and off. *)
Lemma cors_flag_changes_nothing_else_witness :
  "tools.staticdir.on" ≠ "cors.expose.on" ∧
  setting_at (HTTPStatsServer.route_config Sample.module_dir Sample.isdir
                (HTTPStatsServer.mk "0.0.0.0" 8000 (Sample.config "/srv/www" true)
                   (Sample.app "/srv/www") true))
    "/assets" "tools.staticdir.on" =
  setting_at (HTTPStatsServer.route_config Sample.module_dir Sample.isdir
                (HTTPStatsServer.mk "0.0.0.0" 8000 (Sample.config "/srv/www" true)
                   (Sample.app "/srv/www") false))
    "/assets" "tools.staticdir.on".
Proof.
  assert (Hk : "tools.staticdir.on" ≠ "cors.expose.on") by discriminate.
  split; [exact Hk|].
  exact (cors_flag_changes_nothing_else Sample.module_dir Sample.isdir
           (HTTPStatsServer.mk "0.0.0.0" 8000 (Sample.config "/srv/www" true)
              (Sample.app "/srv/www") true)
           (HTTPStatsServer.mk "0.0.0.0" 8000 (Sample.config "/srv/www" true)
              (Sample.app "/srv/www") false)
           "/assets" "tools.staticdir.on" eq_refl Hk).
Defined.

(** X9 on the sample web root. *)
Lemma static_dirs_were_found_witness :
  setting_at (HTTPStatsServer.route_config Sample.module_dir Sample.isdir
                (Sample.server "/srv/www" false)) "/assets" "tools.staticdir.dir"
  = Some (SStr "/srv/www/assets") ∧
  Sample.isdir "/srv/www/assets" = true.
Proof.
  assert (H : setting_at (HTTPStatsServer.route_config Sample.module_dir
                            Sample.isdir (Sample.server "/srv/www" false))
                "/assets" "tools.staticdir.dir" = Some (SStr "/srv/www/assets"))
    by (vm_compute; exact eq_refl).
  split; [exact H|].
  exact (proj1 (static_dirs_were_found Sample.module_dir Sample.isdir
                  (Sample.server "/srv/www" false) "/assets" "/srv/www/assets" H)).
Defined.

(** ** HTTPStatsServer: start and stop *)

Section LifecycleMore.
Context (module_dir : string) (isdir : string → bool).
Context (cors_install engine_start : Res unit).

Local Abbreviation web_root self :=
  (get_web_path (HTTPStatsServer.config self) (default_html_dir module_dir)).

(** X10. When CORS support installs (if it is enabled) and the engine
    starts, [start] returns normally with the engine running, the route
    table mounted under "/" and every other mount left alone, the six
    server settings written over whatever [cherrypy.config] held and every
    other setting kept, access-log propagation off, the error log at
    ERROR, and the start message, with host and port, as the last thing
    logged. *)
Theorem start_brings_server_up (self : HTTPStatsServer.t) (s : store) :
  (HTTPStatsServer._cors_enabled self = true → cors_install = Ok ()) →
  engine_start = Ok () →
  let r := HTTPStatsServer.start module_dir isdir cors_install engine_start
             self s in
  r.1 = Ok () ∧
  engine_running (cherrypy r.2) = true ∧
  tree (cherrypy r.2) !! "/" =
    Some (HTTPStatsServer.route_config module_dir isdir self) ∧
  (∀ script, script ≠ "/" →
     tree (cherrypy r.2) !! script = tree (cherrypy s) !! script) ∧
  global_config (cherrypy r.2) !! "server.socket_host" =
    Some (SStr (HTTPStatsServer.host self)) ∧
  global_config (cherrypy r.2) !! "server.socket_port" =
    Some (SInt (HTTPStatsServer.port self)) ∧
  global_config (cherrypy r.2) !! "engine.autoreload.on" = Some (SBool false) ∧
  global_config (cherrypy r.2) !! "log.screen" = Some (SBool false) ∧
  global_config (cherrypy r.2) !! "log.access_file" = Some (SStr "") ∧
  global_config (cherrypy r.2) !! "log.error_file" = Some (SStr "") ∧
  (∀ key,
     key ∉ ["server.socket_host"; "server.socket_port"; "engine.autoreload.on";
            "log.screen"; "log.access_file"; "log.error_file"] →
     global_config (cherrypy r.2) !! key = global_config (cherrypy s) !! key) ∧
  access_log_propagate (cherrypy r.2) = false ∧
  error_log_level (cherrypy r.2) = logging_ERROR ∧
  cors_installed (cherrypy r.2) =
    HTTPStatsServer._cors_enabled self || cors_installed (cherrypy s) ∧
  heap r.2 = heap s ∧
  last (log_calls r.2) =
    Some ("INFO",
          "HTTP stats server started on http://" +:+ HTTPStatsServer.host self
          +:+ ":" +:+ pretty (HTTPStatsServer.port self)).
Proof.
  intros Hcors -> r. subst r.
  unfold HTTPStatsServer.start, HTTPStatsServer._setup_server_cors.
  generalize (HTTPStatsServer.route_config module_dir isdir self).
  intros table.
  destruct (HTTPStatsServer._cors_enabled self);
    [rewrite (Hcors eq_refl)|]; simpl;
    (split; [done|]); (split; [done|]);
    (split; [apply lookup_insert_eq|]);
    (split; [intros script Hs; by apply lookup_insert_ne|]);
    do 6 (split; [apply lookup_union_Some_l; vm_compute; exact eq_refl|]);
    (split; [intros key Hk; apply lookup_union_r; set_unfold in Hk;
             rewrite !lookup_insert_ne by naive_solver; done|]);
    (split; [done|]); (split; [done|]); (split; [done|]); (split; [done|]);
    apply last_snoc.
Qed.

(** X11. When [start] raises, it raises the very error that stopped it,
    after logging it at ERROR; the engine is not marked running and no
    object on the heap changes.  Either CORS was enabled and its
    installation failed, and then nothing of CherryPy's state was touched;
    or the engine refused to start, and then the route table is already
    mounted. *)
Theorem start_failure_is_logged_and_reraised
    (self : HTTPStatsServer.t) (s : store) (e : exn) :
  let r := HTTPStatsServer.start module_dir isdir cors_install engine_start
             self s in
  r.1 = Raise e →
  last (log_calls r.2) =
    Some ("ERROR", "Failed to start HTTP server: " +:+ exn_str e) ∧
  engine_running (cherrypy r.2) = engine_running (cherrypy s) ∧
  heap r.2 = heap s ∧
  (HTTPStatsServer._cors_enabled self = true ∧ cors_install = Raise e ∧
   cherrypy r.2 = cherrypy s
   ∨ engine_start = Raise e ∧
     tree (cherrypy r.2) !! "/" =
       Some (HTTPStatsServer.route_config module_dir isdir self)).
Proof.
  intros r. subst r.
  unfold HTTPStatsServer.start, HTTPStatsServer._setup_server_cors.
  generalize (HTTPStatsServer.route_config module_dir isdir self).
  intros table.
  destruct (HTTPStatsServer._cors_enabled self),
    cors_install as [[]|e1], engine_start as [[]|e2]; simpl;
    try discriminate; intros [= <-];
    (split; [apply last_snoc|]); (split; [done|]); (split; [done|]);
    first [by left | right; split; [done|apply lookup_insert_eq]].
Qed.

(** X12. With CORS disabled [start] never installs CORS support: what it
    returns and the store it leaves do not depend on what
    [cherrypy_cors.install()] would do, and the installed flag is as it
    was. *)
Theorem start_without_cors_never_installs
    (cors_install' : Res unit) (self : HTTPStatsServer.t) (s : store) :
  HTTPStatsServer._cors_enabled self = false →
  HTTPStatsServer.start module_dir isdir cors_install engine_start self s =
  HTTPStatsServer.start module_dir isdir cors_install' engine_start self s ∧
  cors_installed
    (cherrypy
       (HTTPStatsServer.start module_dir isdir cors_install engine_start
          self s).2)
  = cors_installed (cherrypy s).
Proof.
  intros Hc.
  unfold HTTPStatsServer.start, HTTPStatsServer._setup_server_cors.
  generalize (HTTPStatsServer.route_config module_dir isdir self).
  intros table. rewrite Hc. split; [done|].
  by destruct engine_start as [[]|e2].
Qed.
End LifecycleMore.

Section StopMore.
Context (engine_exit : Res unit).

(** X13. [stop] never raises, whether the engine exits or fails to, and so
    neither does a second [stop] after it.  It leaves the mounted routes
    and the server settings in place; the engine is marked stopped only if
    the exit went through, and the outcome is logged: INFO on success,
    WARNING with the error's text on failure. *)
Theorem stop_never_raises
    (engine_exit' : Res unit) (self : HTTPStatsServer.t) (s : store) :
  let r := HTTPStatsServer.stop engine_exit self s in
  r.1 = Ok () ∧
  (HTTPStatsServer.stop engine_exit' self r.2).1 = Ok () ∧
  heap r.2 = heap s ∧
  tree (cherrypy r.2) = tree (cherrypy s) ∧
  global_config (cherrypy r.2) = global_config (cherrypy s) ∧
  engine_running (cherrypy r.2) =
    (if is_Ok engine_exit then false else engine_running (cherrypy s)) ∧
  log_calls r.2 =
    log_calls s ++
      [match engine_exit with
       | Ok _ => ("INFO", "HTTP stats server stopped")
       | Raise e => ("WARNING", "Error stopping HTTP server: " +:+ exn_str e)
       end].
Proof.
  unfold HTTPStatsServer.stop.
  by destruct engine_exit as [[]|e], engine_exit' as [[]|e'].
Qed.
End StopMore.

Section RestartMore.
Context (module_dir : string) (isdir : string → bool).
Context (cors_install engine_start engine_exit : Res unit).

(** X14. Start, stop, start again: when CORS support installs (if
    enabled) and the engine starts, the second [start] succeeds whatever
    happened at [stop], and leaves CherryPy's state (mounts, settings,
    flags) exactly as the first [start] alone would have. *)
Theorem restart_reaches_the_same_state (self : HTTPStatsServer.t) (s : store) :
  (HTTPStatsServer._cors_enabled self = true → cors_install = Ok ()) →
  engine_start = Ok () →
  let start :=
    HTTPStatsServer.start module_dir isdir cors_install engine_start self in
  let again := (start ;; HTTPStatsServer.stop engine_exit self ;; start) s in
  again.1 = Ok () ∧
  cherrypy again.2 = cherrypy (start s).2 ∧
  heap again.2 = heap s.
Proof.
  intros Hcors -> start again. subst again start.
  unfold HTTPStatsServer.start, HTTPStatsServer.stop,
    HTTPStatsServer._setup_server_cors.
  generalize (HTTPStatsServer.route_config module_dir isdir self).
  intros table.
  destruct (HTTPStatsServer._cors_enabled self);
    [rewrite (Hcors eq_refl)|];
    destruct engine_exit as [[]|e]; simpl;
    (split; [done|]); (split; [|done]);
    rewrite insert_insert_eq, (assoc_L (∪)), (idemp_L (∪)); done.
Qed.
End RestartMore.

(** X10 on the sample server. *)
Lemma start_brings_server_up_witness :
  let r := HTTPStatsServer.start Sample.module_dir Sample.isdir (Ok ()) (Ok ())
             (Sample.server "/srv/www" true) Sample.store0 in
  r.1 = Ok () ∧
  engine_running (cherrypy r.2) = true ∧
  global_config (cherrypy r.2) !! "server.socket_port" = Some (SInt 8000) ∧
  last (log_calls r.2) =
    Some ("INFO", "HTTP stats server started on http://0.0.0.0:8000").
Proof.
  intros r.
  destruct (start_brings_server_up Sample.module_dir Sample.isdir (Ok ()) (Ok ())
              (Sample.server "/srv/www" true) Sample.store0
              (λ _, eq_refl) eq_refl)
    as (Hok & Hrun & _ & _ & _ & Hport & _ & _ & _ & _ & _ & _ & _ & _ & _ & Hlog).
  split; [exact Hok|]. split; [exact Hrun|]. split; [exact Hport|].
  etransitivity; [exact Hlog|]. vm_compute. exact eq_refl.
Defined.

(** X11 on a port that is taken. *)
Lemma start_failure_is_logged_and_reraised_witness :
  let busy := PyError "OSError" "[Errno 98] Address already in use" in
  let r := HTTPStatsServer.start Sample.module_dir Sample.isdir (Ok ())
             (Raise busy) (Sample.server "/srv/www" true) Sample.store0 in
  r.1 = Raise busy ∧
  last (log_calls r.2) =
    Some ("ERROR",
          "Failed to start HTTP server: [Errno 98] Address already in use") ∧
  engine_running (cherrypy r.2) = false.
Proof.
  intros busy r.
  assert (Hr : r.1 = Raise busy) by (vm_compute; exact eq_refl).
  destruct (start_failure_is_logged_and_reraised Sample.module_dir Sample.isdir
              (Ok ()) (Raise busy) (Sample.server "/srv/www" true)
              Sample.store0 busy Hr) as (Hlog & Hrun & _).
  split; [exact Hr|]. split; [exact Hlog|]. exact Hrun.
Defined.

(** X12 on the sample server with CORS off. *)
Lemma start_without_cors_never_installs_witness :
  HTTPStatsServer._cors_enabled (Sample.server "/srv/www" false) = false ∧
  HTTPStatsServer.start Sample.module_dir Sample.isdir (Ok ()) (Ok ())
    (Sample.server "/srv/www" false) Sample.store0 =
  HTTPStatsServer.start Sample.module_dir Sample.isdir
    (Raise (PyError "ImportError" "No module named 'cherrypy_cors'")) (Ok ())
    (Sample.server "/srv/www" false) Sample.store0.
Proof.
  split; [reflexivity|].
  exact (proj1 (start_without_cors_never_installs Sample.module_dir Sample.isdir
                  (Ok ()) (Ok ())
                  (Raise (PyError "ImportError" "No module named 'cherrypy_cors'"))
                  (Sample.server "/srv/www" false) Sample.store0 eq_refl)).
Defined.

(** X14 on the sample server, with an engine that fails to exit. *)
Lemma restart_reaches_the_same_state_witness :
  let start := HTTPStatsServer.start Sample.module_dir Sample.isdir (Ok ())
                 (Ok ()) (Sample.server "/srv/www" true) in
  let again :=
    (start ;;
     HTTPStatsServer.stop (Raise (PyError "RuntimeError" "engine is busy"))
       (Sample.server "/srv/www" true) ;;
     start) Sample.store0 in
  again.1 = Ok () ∧ cherrypy again.2 = cherrypy (start Sample.store0).2.
Proof.
  intros start again.
  destruct (restart_reaches_the_same_state Sample.module_dir Sample.isdir
              (Ok ()) (Ok ()) (Raise (PyError "RuntimeError" "engine is busy"))
              (Sample.server "/srv/www" true) Sample.store0
              (λ _, eq_refl) eq_refl) as (Hok & Hsame & _).
  split; [exact Hok|exact Hsame].
Defined.

(** ** The web root: one directory for handlers and routes *)

Lemma append_assoc (a b c : string) : (a +:+ b) +:+ c = a +:+ (b +:+ c).
Proof.
  induction a as [|ch a IH]; [reflexivity|].
  change (String ch ((a +:+ b) +:+ c) = String ch (a +:+ (b +:+ c))).
  by rewrite IH.
Qed.

Lemma ends_with_sep_app_sep (a : string) : ends_with_sep (a +:+ "/") = true.
Proof.
  induction a as [|ch a IH]; [reflexivity|].
  change (ends_with_sep (String ch (a +:+ "/")) = true).
  destruct a as [|ch' a]; [reflexivity|exact IH].
Qed.

(** [os.path.join] adds no second separator after one that is there. *)
Lemma path_join_trailing_sep (a b : string) :
  a ≠ "" → ends_with_sep a = false →
  path_join (a +:+ "/") b = path_join a b.
Proof.
  intros Ha Hsep. unfold path_join.
  destruct (String.prefix "/" b); [done|].
  rewrite ends_with_sep_app_sep, orb_true_r, Hsep, orb_false_r.
  rewrite bool_decide_eq_false_2 by done.
  apply append_assoc.
Qed.

Lemma get_web_path_set (path : string) (cors : option bool) (d : string) :
  get_web_path (mkConfig (Some (mkWebSection (Some path) cors))) d = path.
Proof. reflexivity. Qed.

(** Case analysis on the two directory tests and the CORS flag of a route
    table, its paths abstracted. *)
Ltac route_table_cases module_dir isdir self :=
  unfold HTTPStatsServer.route_config;
  generalize
    (path_join (get_web_path (HTTPStatsServer.config self)
                  (default_html_dir module_dir)) "assets");
  generalize
    (path_join (get_web_path (HTTPStatsServer.config self)
                  (default_html_dir module_dir)) "_next");
  generalize
    (get_web_path (HTTPStatsServer.config self) (default_html_dir module_dir));
  generalize (HTTPStatsServer._cors_enabled self);
  intros cors html_dir next_dir assets_dir;
  destruct (isdir assets_dir), (isdir next_dir), cors.

Section WebRootMore.
Context (module_dir : string) (isdir : string → bool).

Local Abbreviation web_root self :=
  (get_web_path (HTTPStatsServer.config self) (default_html_dir module_dir)).

Lemma favicon_under_web_root self :
  setting_at (HTTPStatsServer.route_config module_dir isdir self)
    "/favicon.ico" "tools.staticfile.filename"
  = Some (SStr (path_join (web_root self) "favicon.ico")).
Proof. route_table_cases module_dir isdir self; vm_compute; exact eq_refl. Qed.

Lemma assets_under_web_root self :
  setting_at (HTTPStatsServer.route_config module_dir isdir self)
    "/assets" "tools.staticdir.dir"
  = if isdir (path_join (web_root self) "assets")
    then Some (SStr (path_join (web_root self) "assets")) else None.
Proof. route_table_cases module_dir isdir self; vm_compute; exact eq_refl. Qed.

Lemma next_under_web_root self :
  setting_at (HTTPStatsServer.route_config module_dir isdir self)
    "/_next" "tools.staticdir.dir"
  = if isdir (path_join (web_root self) "_next")
    then Some (SStr (path_join (web_root self) "_next")) else None.
Proof. route_table_cases module_dir isdir self; vm_compute; exact eq_refl. Qed.

(** X15. A server comes out of the constructor only if the API delegate
    could be built, and then "CORS enabled: ..." is the last thing logged.
    The directory its dispatcher reads index.html from is the one its
    route table takes the favicon and the two asset directories from.
    Without a "web_path" in the configuration that directory is [html]
    beside the module; without a "cors_enabled", CORS is off.  When the
    delegate's constructor raises, so does the server's, with the same
    exception, and nothing is logged. *)
Theorem server_init_shares_web_root
    (new_APIEndpoints : Config → M APIEndpoints)
    (host : string) (port : Z) (config : option Config) (s : store) :
  (∀ self s',
     HTTPStatsServer.__init__ module_dir new_APIEndpoints host port config s
       = (Ok self, s') →
     let html_dir := StatsApp.html_dir (HTTPStatsServer.app self) in
     (∃ s1,
        new_APIEndpoints (config_or_empty config) s =
          (Ok (StatsApp.api (HTTPStatsServer.app self)), s1) ∧
        s' = set_log_calls
               (λ l, l ++ [("INFO",
                            "CORS enabled: "
                            +:+ bool_str (HTTPStatsServer._cors_enabled self))])
               s1) ∧
     setting_at (HTTPStatsServer.route_config module_dir isdir self)
       "/favicon.ico" "tools.staticfile.filename"
     = Some (SStr (path_join html_dir "favicon.ico")) ∧
     setting_at (HTTPStatsServer.route_config module_dir isdir self)
       "/assets" "tools.staticdir.dir"
     = (if isdir (path_join html_dir "assets")
        then Some (SStr (path_join html_dir "assets")) else None) ∧
     setting_at (HTTPStatsServer.route_config module_dir isdir self)
       "/_next" "tools.staticdir.dir"
     = (if isdir (path_join html_dir "_next")
        then Some (SStr (path_join html_dir "_next")) else None) ∧
     ((c ← config; w ← web c; web_path w) = None →
      html_dir = path_join module_dir "html") ∧
     ((c ← config; w ← web c; cors_enabled w) = None →
      HTTPStatsServer._cors_enabled self = false)) ∧
  (∀ e s1,
     new_APIEndpoints (config_or_empty config) s = (Raise e, s1) →
     HTTPStatsServer.__init__ module_dir new_APIEndpoints host port config s
       = (Raise e, s1)).
Proof.
  unfold HTTPStatsServer.__init__, StatsApp.__init__.
  unfold mbind, M_bind, mret, M_ret, logger_call, modify.
  destruct (new_APIEndpoints (config_or_empty config) s) as [[delegate|e0] s1].
  - split; [|done]. intros self s' [= <- <-]. cbv zeta.
    split; [by exists s1|].
    split; [apply favicon_under_web_root|].
    split; [apply assets_under_web_root|].
    split; [apply next_under_web_root|].
    split.
    + destruct config as [[[[[p|] c]|]]|]; simpl; by intros.
    + destruct config as [[[[p [c|]]|]]|]; simpl; by intros.
  - split; [done|]. by intros e s2 [= <- <-].
Qed.

(** X16. A trailing slash on the configured web root changes nothing: the
    dispatcher reads the same index.html, with the same outcome, and the
    server builds the same route table. *)
Theorem web_path_trailing_slash
    (open_read : string → Res string)
    (new_APIEndpoints new_APIEndpoints' : Config → M APIEndpoints)
    (path : string) (cors : option bool)
    (host : string) (port : Z) (app : StatsApp.t) (enabled : bool)
    (a a' : StatsApp.t) (s0 s1 s0' s1' s : store) :
  path ≠ "" → ends_with_sep path = false →
  let with_web_path p := mkConfig (Some (mkWebSection (Some p) cors)) in
  StatsApp.__init__ module_dir new_APIEndpoints
    (Some (with_web_path (path +:+ "/"))) s0 = (Ok a, s1) →
  StatsApp.__init__ module_dir new_APIEndpoints'
    (Some (with_web_path path)) s0' = (Ok a', s1') →
  StatsApp.index open_read a s = StatsApp.index open_read a' s ∧
  HTTPStatsServer.route_config module_dir isdir
    (HTTPStatsServer.mk host port (with_web_path (path +:+ "/")) app enabled)
  = HTTPStatsServer.route_config module_dir isdir
      (HTTPStatsServer.mk host port (with_web_path path) app enabled).
Proof.
  intros Hp Hsep with_web_path Ha Ha'. subst with_web_path. split.
  - assert (Hdir : StatsApp.html_dir a = path +:+ "/").
    { revert Ha. unfold StatsApp.__init__, mbind, M_bind, mret, M_ret.
      destruct (new_APIEndpoints _ s0) as [[delegate|e] s2]; [|done].
      by intros [= <- <-]. }
    assert (Hdir' : StatsApp.html_dir a' = path).
    { revert Ha'. unfold StatsApp.__init__, mbind, M_bind, mret, M_ret.
      destruct (new_APIEndpoints' _ s0') as [[delegate|e] s2]; [|done].
      by intros [= <- <-]. }
    unfold StatsApp.index. rewrite Hdir, Hdir'.
    by rewrite path_join_trailing_sep.
  - unfold HTTPStatsServer.route_config.
    cbn [HTTPStatsServer.config HTTPStatsServer._cors_enabled].
    rewrite !get_web_path_set.
    unfold HTTPStatsServer.route_table.
    by rewrite !path_join_trailing_sep.
Qed.
End WebRootMore.

(** X15 on a server built without configuration. *)
Lemma server_init_shares_web_root_witness :
  let self := HTTPStatsServer.mk "0.0.0.0" 8000 (mkConfig None)
                (StatsApp.mk (mkConfig None) "/opt/repeater/web/html" api_object)
                false in
  (HTTPStatsServer.__init__ Sample.module_dir Sample.new_APIEndpoints
     "0.0.0.0" 8000 None Sample.store0).1 = Ok self ∧
  setting_at (HTTPStatsServer.route_config Sample.module_dir Sample.isdir self)
    "/favicon.ico" "tools.staticfile.filename"
  = Some (SStr "/opt/repeater/web/html/favicon.ico") ∧
  HTTPStatsServer._cors_enabled self = false.
Proof.
  intros self.
  assert (Hinit :
    HTTPStatsServer.__init__ Sample.module_dir Sample.new_APIEndpoints
      "0.0.0.0" 8000 None Sample.store0
    = (Ok self,
       (HTTPStatsServer.__init__ Sample.module_dir Sample.new_APIEndpoints
          "0.0.0.0" 8000 None Sample.store0).2))
    by (vm_compute; exact eq_refl).
  destruct (proj1 (server_init_shares_web_root Sample.module_dir Sample.isdir
                     Sample.new_APIEndpoints "0.0.0.0" 8000 None Sample.store0)
              self _ Hinit) as (_ & Hfav & _ & _ & _ & Hcors).
  split; [by rewrite Hinit|]. split; [exact Hfav|exact (Hcors eq_refl)].
Defined.

(** X16 on the sample web root. *)
Lemma web_path_trailing_slash_witness :
  "/srv/www" ≠ "" ∧ ends_with_sep "/srv/www" = false ∧
  StatsApp.__init__ Sample.module_dir Sample.new_APIEndpoints
    (Some (Sample.config "/srv/www/" false)) Sample.store0
  = (Ok (Sample.app "/srv/www/"), Sample.store0) ∧
  StatsApp.__init__ Sample.module_dir Sample.new_APIEndpoints
    (Some (Sample.config "/srv/www" false)) Sample.store0
  = (Ok (Sample.app "/srv/www"), Sample.store0) ∧
  StatsApp.index Sample.open_read (Sample.app "/srv/www/") Sample.store0
  = StatsApp.index Sample.open_read (Sample.app "/srv/www") Sample.store0.
Proof.
  assert (Hp : "/srv/www" ≠ "") by discriminate.
  assert (Hsep : ends_with_sep "/srv/www" = false) by reflexivity.
  assert (Ha : StatsApp.__init__ Sample.module_dir Sample.new_APIEndpoints
                 (Some (Sample.config "/srv/www/" false)) Sample.store0
               = (Ok (Sample.app "/srv/www/"), Sample.store0)) by reflexivity.
  assert (Ha' : StatsApp.__init__ Sample.module_dir Sample.new_APIEndpoints
                  (Some (Sample.config "/srv/www" false)) Sample.store0
                = (Ok (Sample.app "/srv/www"), Sample.store0)) by reflexivity.
  split; [exact Hp|]. split; [exact Hsep|].
  split; [exact Ha|]. split; [exact Ha'|].
  exact (proj1 (web_path_trailing_slash Sample.module_dir Sample.isdir
                  Sample.open_read Sample.new_APIEndpoints
                  Sample.new_APIEndpoints "/srv/www" (Some false) "0.0.0.0" 8000
                  (Sample.app "/srv/www") false (Sample.app "/srv/www/")
                  (Sample.app "/srv/www") Sample.store0 Sample.store0
                  Sample.store0 Sample.store0 Sample.store0 Hp Hsep Ha Ha')).
Defined.

(** ** LogBuffer: the bound as an invariant *)

Section LogBufferInvariant.
Context {LogRecord : Type}.
Context (format created_isoformat : LogRecord → Res string).
Context (levelname : LogRecord → string) (raiseExceptions : bool).
Context (stderr_set : bool).
Context (stderr_report : LogRecord → list string * option exn).

(** X17. The bound is an invariant of [emit], from any state: if the
    buffer's deque has bound [C] and holds at most [C] entries, then after
    any run of [emit] it still has bound [C] and holds at most [C]
    entries, the last [C] of the old ones followed by the inserted
    ones. *)
Theorem emit_keeps_the_bound
    (self : LogBuffer.t) (C : nat) (old : list LogEntry)
    (records : list LogRecord) (s : store) :
  heap s !! LogBuffer.logs self = Some (ODeque (Deque (Some C) old)) →
  length old ≤ C →
  let s' := (LogBuffer.emit_all format created_isoformat levelname
               raiseExceptions stderr_set stderr_report self records s).2 in
  let all := old ++ LogBuffer.inserted format created_isoformat levelname
                      records in
  heap s' !! LogBuffer.logs self =
    Some (ODeque (Deque (Some C) (drop (length all - C) all))) ∧
  length (contents (LogBuffer.logs self) s') ≤ C.
Proof.
  intros Hlive Hlen s' all. subst s'.
  destruct (emit_all_spec format created_isoformat levelname raiseExceptions
    stderr_set stderr_report
              self records s _ Hlive) as (s2 & Hrun & Hheap).
  rewrite Hrun. simpl.
  rewrite deque_append_fold in Hheap by done. fold all in Hheap.
  assert (Hlook : heap s2 !! LogBuffer.logs self =
                    Some (ODeque (Deque (Some C) (drop (length all - C) all))))
    by (rewrite Hheap; apply lookup_insert_eq).
  split; [done|].
  unfold contents. rewrite Hlook. simpl. rewrite length_drop. lia.
Qed.

(** X18. On a buffer that respects a bound of at least one, a record that
    formats becomes the newest entry: it is the last of the stored
    sequence right after its [emit].  On a buffer of bound zero nothing
    is ever stored. *)
Theorem emitted_record_is_newest
    (self : LogBuffer.t) (C : nat) (old : list LogEntry)
    (record : LogRecord) (e : LogEntry) (s : store) :
  heap s !! LogBuffer.logs self = Some (ODeque (Deque (Some C) old)) →
  length old ≤ C →
  LogBuffer.entry_of format created_isoformat levelname record = Some e →
  let s' := (LogBuffer.emit format created_isoformat levelname
               raiseExceptions stderr_set stderr_report self record s).2 in
  (0 < C → last (contents (LogBuffer.logs self) s') = Some e) ∧
  (C = 0 → contents (LogBuffer.logs self) s' = []).
Proof.
  intros Hlive Hlen He s'. subst s'.
  rewrite (emit_inserts _ _ _ _ _ _ self record e _ s He Hlive). simpl.
  unfold contents. simpl. rewrite lookup_insert_eq.
  rewrite deque_append_bounded by done. simpl.
  rewrite length_app. simpl. split.
  - intros HC.
    destruct (decide (length old + 1 ≤ C)) as [Hle|Hgt].
    + replace (length old + 1 - C) with 0 by lia. rewrite drop_0.
      apply last_snoc.
    + replace (length old + 1 - C) with 1 by lia.
      destruct old as [|x old]; [simpl in *; lia|]. simpl.
      apply last_snoc.
  - intros ->. destruct old; [done|simpl in Hlen; lia].
Qed.
End LogBufferInvariant.

(** X17 on a buffer of two that already holds two entries. *)
Lemma emit_keeps_the_bound_witness :
  let s := (LogBuffer.emit_all Sample.format Sample.created_isoformat
              Sample.levelname true true Sample.stderr_report
              (LogBuffer.mk 0) ["boot"; "ready"]
              (LogBuffer.__init__ (Some 2%Z) Sample.store0).2).2 in
  heap s !! 0 =
    Some (ODeque (Deque (Some 2) [Sample.entry "boot"; Sample.entry "ready"])) ∧
  length (contents 0
            (LogBuffer.emit_all Sample.format Sample.created_isoformat
               Sample.levelname true true Sample.stderr_report (LogBuffer.mk 0)
               ["serving"; "%d"; "stopping"] s).2) ≤ 2.
Proof.
  intros s.
  assert (Hlive : heap s !! 0 =
            Some (ODeque (Deque (Some 2)
                            [Sample.entry "boot"; Sample.entry "ready"])))
    by (vm_compute; exact eq_refl).
  split; [exact Hlive|].
  exact (proj2 (emit_keeps_the_bound Sample.format Sample.created_isoformat
                  Sample.levelname true true Sample.stderr_report
                  (LogBuffer.mk 0) 2
                  [Sample.entry "boot"; Sample.entry "ready"]
                  ["serving"; "%d"; "stopping"] s Hlive (le_n 2))).
Defined.

(** X18 on the same buffer. *)
Lemma emitted_record_is_newest_witness :
  let s := (LogBuffer.emit_all Sample.format Sample.created_isoformat
              Sample.levelname true true Sample.stderr_report
              (LogBuffer.mk 0) ["boot"; "ready"]
              (LogBuffer.__init__ (Some 2%Z) Sample.store0).2).2 in
  LogBuffer.entry_of Sample.format Sample.created_isoformat Sample.levelname
    "serving" = Some (Sample.entry "serving") ∧
  last (contents 0
          (LogBuffer.emit Sample.format Sample.created_isoformat
             Sample.levelname true true Sample.stderr_report
             (LogBuffer.mk 0) "serving" s).2)
  = Some (Sample.entry "serving").
Proof.
  intros s.
  assert (Hlive : heap s !! 0 =
            Some (ODeque (Deque (Some 2)
                            [Sample.entry "boot"; Sample.entry "ready"])))
    by (vm_compute; exact eq_refl).
  assert (He : LogBuffer.entry_of Sample.format Sample.created_isoformat
                 Sample.levelname "serving" = Some (Sample.entry "serving"))
    by (vm_compute; exact eq_refl).
  split; [exact He|].
  exact (proj1 (emitted_record_is_newest Sample.format Sample.created_isoformat
                  Sample.levelname true true Sample.stderr_report
                  (LogBuffer.mk 0) 2
                  [Sample.entry "boot"; Sample.entry "ready"] "serving"
                  (Sample.entry "serving") s Hlive (le_n 2) He)
           (Nat.lt_0_succ 1)).
Defined.
